(** * dbuse-proto: the conversational retrieval pipeline and the document
      base registry, embedded in Rocq.

    The development follows the two Python modules of the repository:
    - [utils/document_base_manager.py], class [DocumentBaseManager];
    - [rag_chatbot.py], class [RAGChatbot].

    Python objects are records, dictionaries are [gmap]s, and methods are
    computations in a state-and-exception monad: a method may mutate the
    object and the outside world, and may raise; mutations made before a
    raise stay. *)

From Stdlib Require Import ZArith Ascii String DecimalString DecimalPos DecimalZ List.
From stdpp Require Import base option list strings gmap.

Local Open Scope string_scope.

(** ** Python strings

    A [str] is a [string]; its characters are the code points below 256. *)

Module Py.

Definition code (c : ascii) : nat := nat_of_ascii c.

Definition between (lo hi n : nat) : bool := (lo <=? n)%nat && (n <=? hi)%nat.

(** [str.isspace] on one character. *)
Definition isspace (c : ascii) : bool :=
  let n := code c in
  between 9 13 n || between 28 32 n || (n =? 133)%nat || (n =? 160)%nat.

(** [str.isalnum] on one character. *)
Definition isalnum (c : ascii) : bool :=
  let n := code c in
  between 48 57 n || between 65 90 n || between 97 122 n
  || (n =? 170)%nat || between 178 179 n || (n =? 181)%nat
  || between 185 186 n || between 188 190 n
  || between 192 214 n || between 216 246 n || between 248 255 n.

(** [s.lstrip()] *)
Fixpoint lstrip (s : string) : string :=
  match s with
  | EmptyString => EmptyString
  | String c s' => if isspace c then lstrip s' else s
  end.

(** [s.rstrip()] *)
Fixpoint rstrip (s : string) : string :=
  match s with
  | EmptyString => EmptyString
  | String c s' =>
      match rstrip s' with
      | EmptyString => if isspace c then EmptyString else String c EmptyString
      | r => String c r
      end
  end.

(** [s.strip()] *)
Definition strip (s : string) : string := rstrip (lstrip s).

(** Truth value of a [str]: the empty string is false. *)
Definition truthy (s : string) : bool :=
  match s with EmptyString => false | _ => true end.

(** Truth value of an [Optional[str]]: [None] and the empty string are false. *)
Definition truthy_opt (o : option string) : bool :=
  match o with Some s => truthy s | None => false end.

(** [str(n)] for a non-negative [int]. *)
Definition str_nat (n : nat) : string := NilZero.string_of_uint (Nat.to_uint n).

(** [str(z)] for an [int]. *)
Definition str_int (z : Z) : string := NilZero.string_of_int (Z.to_int z).

Definition sep : ascii := "/"%char.

Definition dquote : ascii := ascii_of_nat 34.

(** The one-character string holding a line feed. *)
Definition nl : string := String (ascii_of_nat 10) EmptyString.

Fixpoint has_sep (s : string) : bool :=
  match s with
  | EmptyString => false
  | String c s' => Ascii.eqb c sep || has_sep s'
  end.

Fixpoint endswith_sep (s : string) : bool :=
  match s with
  | EmptyString => false
  | String c EmptyString => Ascii.eqb c sep
  | String _ s' => endswith_sep s'
  end.

(** [os.path.join(a, b)] (posixpath). *)
Definition os_path_join (a b : string) : string :=
  if String.prefix "/" b then b
  else if negb (truthy a) || endswith_sep a then a +:+ b
  else a +:+ "/" +:+ b.

(** [os.path.basename(p)]: what follows the last separator. *)
Fixpoint os_path_basename (p : string) : string :=
  match p with
  | EmptyString => EmptyString
  | String _ p' => if has_sep p then os_path_basename p' else p
  end.

(** [c if c.isalnum() else "_"] joined over the characters of [name]. *)
Fixpoint sanitize (name : string) : string :=
  match name with
  | EmptyString => EmptyString
  | String c s' => String (if isalnum c then c else "_"%char) (sanitize s')
  end.

Fixpoint contains_char (c : ascii) (s : string) : bool :=
  match s with
  | EmptyString => false
  | String d s' => Ascii.eqb c d || contains_char c s'
  end.

Definition hex_digit (n : nat) : ascii :=
  ascii_of_nat (if (n <? 10)%nat then 48 + n else 87 + n).

(** A character is printed as it is by [repr] when it is printable. *)
Definition isprintable (c : ascii) : bool :=
  let n := code c in
  between 32 126 n || (between 161 255 n && negb (n =? 173)%nat).

Definition repr_char (quote : ascii) (c : ascii) : string :=
  let n := code c in
  if Ascii.eqb c quote || Ascii.eqb c "\"%char then String "\"%char (String c EmptyString)
  else if (n =? 9)%nat then "\t"
  else if (n =? 10)%nat then "\n"
  else if (n =? 13)%nat then "\r"
  else if isprintable c then String c EmptyString
  else String "\"%char (String "x"%char
         (String (hex_digit (n / 16)) (String (hex_digit (n mod 16)) EmptyString))).

Fixpoint repr_body (quote : ascii) (s : string) : string :=
  match s with
  | EmptyString => EmptyString
  | String c s' => repr_char quote c +:+ repr_body quote s'
  end.

(** [repr(s)] for a [str]. *)
Definition repr (s : string) : string :=
  let quote :=
    if contains_char "'"%char s && negb (contains_char dquote s)
    then dquote else "'"%char in
  String quote (repr_body quote s +:+ String quote EmptyString).

End Py.

(** ** Exceptions and the method monad *)

(** The exception classes the two modules raise themselves, and
    [OtherError] for any other [Exception] raised by a collaborator,
    carrying its [str()]. *)
Inductive exn : Type :=
| KeyError (msg : string)
| ValueError (msg : string)
| TypeError (msg : string)
| OtherError (text : string).

(** [str(e)]; a [KeyError] prints the [repr] of its argument. *)
Definition str_exn (e : exn) : string :=
  match e with
  | KeyError msg => Py.repr msg
  | ValueError msg => msg
  | TypeError msg => msg
  | OtherError text => text
  end.

Definition is_KeyError (e : exn) : bool :=
  match e with KeyError _ => true | _ => false end.

Inductive outcome (A : Type) : Type :=
| Return (a : A)
| Raise (e : exn).
Arguments Return {A} a.
Arguments Raise {A} e.

(** A method over a mutable state [S]: the state it leaves is returned in
    both cases. *)
Definition M (S A : Type) : Type := S -> outcome A * S.

Definition ret {S A} (a : A) : M S A := fun s => (Return a, s).

Definition raise {S A} (e : exn) : M S A := fun s => (Raise e, s).

Definition bind {S A B} (m : M S A) (k : A -> M S B) : M S B :=
  fun s =>
    match m s with
    | (Return a, s') => k a s'
    | (Raise e, s') => (Raise e, s')
    end.

Definition gets {S A} (f : S -> A) : M S A := fun s => (Return (f s), s).

Definition modify {S} (f : S -> S) : M S unit := fun s => (Return tt, f s).

(** [try: m except Exception as e: h e] *)
Definition try_except {S A} (m : M S A) (h : exn -> M S A) : M S A :=
  fun s =>
    match m s with
    | (Return a, s') => (Return a, s')
    | (Raise e, s') => h e s'
    end.

(** [try: m except KeyError: h]; any other exception goes on. *)
Definition try_except_KeyError {S A} (m : M S A) (h : M S A) : M S A :=
  fun s =>
    match m s with
    | (Return a, s') => (Return a, s')
    | (Raise e, s') => if is_KeyError e then h s' else (Raise e, s')
    end.

(** Run a method of a component [T] of the state [S]. *)
Definition zoom {S T A} (proj : S -> T) (inj : T -> S -> S) (m : M T A) : M S A :=
  fun s => let '(r, t') := m (proj s) in (r, inj t' s).

Declare Scope method_scope.
Delimit Scope method_scope with method.
Notation "x <- m ;; k" := (bind m (fun x => k))
  (at level 100, m at next level, right associativity) : method_scope.
Notation "m ;;; k" := (bind m (fun _ => k))
  (at level 100, right associativity) : method_scope.
Local Open Scope method_scope.

(** ** The world outside the two classes *)

Inductive Message : Type :=
| SystemMessage (content : string)
| HumanMessage (content : string)
| AIMessage (content : string).

(** An embedding is opaque to the core. *)
Definition Embedding : Type := list Z.

(** Chunk metadata, [{"source": ..., "file_path": ...}]. *)
Record Metadata : Type := { source : string; file_path : string }.

(** A retrieved chunk. *)
Record Document : Type := { page_content : string; doc_metadata : Metadata }.

(** A stored chunk of a vector index. *)
Record StoredChunk : Type :=
  { chunk_text : string; chunk_embedding : Embedding; chunk_metadata : Metadata }.

(** What the program does to its environment, in order. *)
Inductive Event : Type :=
| EvEmbedding (texts : list string)
| EvGeneration (prompt : list Message)
| EvClock
| EvMakedirs (path : string)
| EvRmtree (path : string)
| EvWriteMetadata (path : string).

(** One record of the registry: the value stored under a base name. The
    [documents] key may be missing from a record. *)
Record BaseInfo : Type := {
  created_at : string;
  updated_at : string;
  description : string;
  directory : string;
  num_documents : Z;
  num_chunks : Z;
  documents : option (list string)
}.

Record World : Type := {
  directories : gset string;
  metadata_files : gmap string (gmap string BaseInfo);
  indexes : gmap string (list StoredChunk);
  trace : list Event
}.

Definition set_directories (d : gset string) (w : World) : World :=
  {| directories := d; metadata_files := metadata_files w;
     indexes := indexes w; trace := trace w |}.

Definition set_metadata_files (f : gmap string (gmap string BaseInfo)) (w : World) : World :=
  {| directories := directories w; metadata_files := f;
     indexes := indexes w; trace := trace w |}.

Definition set_indexes (i : gmap string (list StoredChunk)) (w : World) : World :=
  {| directories := directories w; metadata_files := metadata_files w;
     indexes := i; trace := trace w |}.

Definition set_trace (t : list Event) (w : World) : World :=
  {| directories := directories w; metadata_files := metadata_files w;
     indexes := indexes w; trace := t |}.

(** The collaborators that are not part of the two classes. Each one is
    given the trace so far, so that it may answer, or fail, differently at
    each call. *)
Record Services : Type := {
  (* int(time.time()) *)
  time_time : list Event -> Z;
  (* datetime.now().isoformat() *)
  now_isoformat : list Event -> string;
  (* shutil.rmtree: None when it succeeds *)
  rmtree_error : list Event -> string -> option exn;
  (* DocumentProcessor.process_file *)
  process_file : list Event -> string -> outcome (list string);
  (* DocumentProcessor.process_directory: relative path -> chunks *)
  process_directory : list Event -> string -> outcome (list (string * list string));
  (* the embedding service, for a batch of chunks and for one query *)
  embed_documents : list Event -> list string -> outcome (list Embedding);
  embed_query : list Event -> string -> outcome Embedding;
  (* similarity ranking of the vector database, best first *)
  rank : Embedding -> list StoredChunk -> list StoredChunk;
  (* the prompt templates, load_prompt("query_rewriter") and load_prompt("qa_system") *)
  query_rewriter_prompt : list Message -> string -> outcome (list Message);
  qa_prompt : list Document -> string -> string -> outcome (list Message);
  (* the generative service, ChatOpenAI followed by StrOutputParser *)
  llm : list Event -> list Message -> outcome string
}.

(** A state that contains the world. *)
Class HasWorld (S : Type) : Type := {
  world_of : S -> World;
  with_world : World -> S -> S
}.

Definition log_event {S} `{HasWorld S} (e : Event) : M S unit :=
  modify (fun s => with_world (set_trace (trace (world_of s) ++ [e])%list (world_of s)) s).

(** Ask a collaborator, which sees the trace so far. *)
Definition ask_service {S A} `{HasWorld S} (f : list Event -> outcome A) : M S A :=
  fun s => (f (trace (world_of s)), s).

Definition get_world {S} `{HasWorld S} : M S World := gets world_of.

Definition modify_world {S} `{HasWorld S} (f : World -> World) : M S unit :=
  modify (fun s => with_world (f (world_of s)) s).

(** Call a collaborator: the call is recorded, and its answer may depend
    on everything recorded before. *)
Definition call_service {S A} `{HasWorld S} (ev : Event) (f : list Event -> outcome A) : M S A :=
  fun s =>
    let w := world_of s in
    (f (trace w), with_world (set_trace (trace w ++ [ev])%list w) s).

(** ** The file system *)

(** [p] is [dir] or lies below it. *)
Definition under (dir p : string) : bool :=
  String.eqb p dir
  || String.prefix (if Py.endswith_sep dir then dir else dir +:+ "/") p.

Definition remove_tree (dir : string) (w : World) : World :=
  {| directories := filter (fun p => under dir p = false) (directories w);
     metadata_files := filter (fun kv => under dir kv.1 = false) (metadata_files w);
     indexes := filter (fun kv => under dir kv.1 = false) (indexes w);
     trace := trace w |}.

Section Program.

Variable svc : Services.

(** [int(time.time())] and [datetime.now().isoformat()] *)
Definition read_clock {S A} `{HasWorld S} (f : list Event -> A) : M S A :=
  call_service EvClock (fun tr => Return (f tr)).

(** [os.makedirs(path, exist_ok=True)] *)
Definition os_makedirs {S} `{HasWorld S} (path : string) : M S unit :=
  modify_world (fun w => set_directories ({[path]} ∪ directories w) w) ;;;
  log_event (EvMakedirs path).

(** [os.path.exists(path)] for a directory *)
Definition os_path_exists {S} `{HasWorld S} (path : string) : M S bool :=
  w <- get_world ;; ret (bool_decide (path ∈ directories w)).

(** [shutil.rmtree(path)]: when it fails the tree is left in place. *)
Definition shutil_rmtree {S} `{HasWorld S} (path : string) : M S unit :=
  r <- call_service (EvRmtree path) (fun tr => Return (rmtree_error svc tr path)) ;;
  match r with
  | Some e => raise e
  | None => modify_world (remove_tree path)
  end.

(** ** [DocumentBaseManager] *)

Record DocumentBaseManager : Type := {
  base_directory : string;
  metadata_file : string;
  metadata : gmap string BaseInfo
}.

Definition set_metadata (m : gmap string BaseInfo) (self : DocumentBaseManager)
  : DocumentBaseManager :=
  {| base_directory := base_directory self;
     metadata_file := metadata_file self;
     metadata := m |}.

(** A manager object together with the world it lives in. *)
Record ManagerState : Type := { m_self : DocumentBaseManager; m_world : World }.

#[export] Instance ManagerState_world : HasWorld ManagerState := {
  world_of := m_world;
  with_world w s := {| m_self := m_self s; m_world := w |}
}.

Definition modify_manager (f : DocumentBaseManager -> DocumentBaseManager)
  : M ManagerState unit :=
  modify (fun s => {| m_self := f (m_self s); m_world := m_world s |}).

Definition not_found (name : string) : exn :=
  KeyError ("Document base '" +:+ name +:+ "' not found").

Definition already_exists (name : string) : exn :=
  ValueError ("Document base '" +:+ name +:+ "' already exists").

(** [_load_metadata]: the registry file when there is one, else [{}]. *)
Definition _load_metadata (file : string) (w : World) : gmap string BaseInfo :=
  match metadata_files w !! file with
  | Some m => m
  | None => ∅
  end.

(** [DocumentBaseManager.__init__] *)
Definition DocumentBaseManager_init (base_directory : string) (w : World) : ManagerState :=
  let w1 := set_trace (trace w ++ [EvMakedirs base_directory])%list
              (set_directories ({[base_directory]} ∪ directories w) w) in
  let file := Py.os_path_join base_directory "metadata.json" in
  {| m_self := {| base_directory := base_directory;
                  metadata_file := file;
                  metadata := _load_metadata file w1 |};
     m_world := w1 |}.

Definition _save_metadata : M ManagerState unit :=
  self <- gets m_self ;;
  modify_world (fun w =>
    set_metadata_files (<[metadata_file self := metadata self]> (metadata_files w)) w) ;;;
  log_event (EvWriteMetadata (metadata_file self)).

Definition create_document_base (name description : string) : M ManagerState string :=
  self <- gets m_self ;;
  match metadata self !! name with
  | Some _ => raise (already_exists name)
  | None =>
      let safe_name := Py.sanitize name in
      timestamp <- read_clock (time_time svc) ;;
      let dir_name := safe_name +:+ "_" +:+ Py.str_int timestamp in
      let doc_base_dir := Py.os_path_join (base_directory self) dir_name in
      os_makedirs doc_base_dir ;;;
      created <- read_clock (now_isoformat svc) ;;
      updated <- read_clock (now_isoformat svc) ;;
      modify_manager (fun self =>
        set_metadata (<[name := {| created_at := created;
                                   updated_at := updated;
                                   description := description;
                                   directory := dir_name;
                                   num_documents := 0;
                                   num_chunks := 0;
                                   documents := Some [] |}]> (metadata self)) self) ;;;
      _save_metadata ;;;
      ret doc_base_dir
  end.

Definition get_document_base (name : string) : M ManagerState BaseInfo :=
  self <- gets m_self ;;
  match metadata self !! name with
  | None => raise (not_found name)
  | Some info => ret info
  end.

Definition get_document_base_path (name : string) : M ManagerState string :=
  self <- gets m_self ;;
  match metadata self !! name with
  | None => raise (not_found name)
  | Some info => ret (Py.os_path_join (base_directory self) (directory info))
  end.

(** The record after one update: the counters grow by the given amounts
    and the file names of the given paths are appended. An empty list of
    paths (or [None]) leaves the [documents] key as it is. *)
Definition updated_info (now : string) (num_documents_ num_chunks_ : Z)
    (documents_ : list string) (base_info : BaseInfo) : BaseInfo :=
  {| created_at := created_at base_info;
     updated_at := now;
     description := description base_info;
     directory := directory base_info;
     num_documents := num_documents base_info + num_documents_;
     num_chunks := num_chunks base_info + num_chunks_;
     documents :=
       match documents_ with
       | [] => documents base_info
       | _ => Some (default [] (documents base_info)
                    ++ map Py.os_path_basename documents_)%list
       end |}.

Definition set_updated_at (now : string) (base_info : BaseInfo) : BaseInfo :=
  {| created_at := created_at base_info;
     updated_at := now;
     description := description base_info;
     directory := directory base_info;
     num_documents := num_documents base_info;
     num_chunks := num_chunks base_info;
     documents := documents base_info |}.

Definition update_document_base (name : string) (num_documents_ num_chunks_ : Z)
    (documents_ : list string) : M ManagerState unit :=
  self <- gets m_self ;;
  match metadata self !! name with
  | None => raise (not_found name)
  | Some base_info =>
      now <- read_clock (now_isoformat svc) ;;
      modify_manager (fun self =>
        set_metadata (<[name := updated_info now num_documents_ num_chunks_
                                 documents_ base_info]> (metadata self)) self) ;;;
      _save_metadata
  end.

Definition delete_document_base (name : string) : M ManagerState unit :=
  self <- gets m_self ;;
  match metadata self !! name with
  | None => raise (not_found name)
  | Some info =>
      let dir_name := directory info in
      let dir_path := Py.os_path_join (base_directory self) dir_name in
      ex <- os_path_exists dir_path ;;
      (if ex : bool then shutil_rmtree dir_path else ret tt) ;;;
      modify_manager (fun self => set_metadata (delete name (metadata self)) self) ;;;
      _save_metadata
  end.

Definition rename_document_base (old_name new_name : string) : M ManagerState unit :=
  self <- gets m_self ;;
  match metadata self !! old_name with
  | None => raise (not_found old_name)
  | Some info =>
      match metadata self !! new_name with
      | Some _ => raise (already_exists new_name)
      | None =>
          now <- read_clock (now_isoformat svc) ;;
          modify_manager (fun self =>
            set_metadata
              (delete old_name
                 (<[new_name := set_updated_at now info]> (metadata self))) self) ;;;
          _save_metadata
      end
  end.

(** ** [VectorStore] *)

(** Modelled from the spec: [utils/vector_store.py] is missing. A vector
    index is bound to a storage location and holds (text, embedding,
    metadata) triples; a missing location is an index with no entries;
    [add_texts] embeds the texts and stores them, and does nothing on
    empty input; a retriever embeds the query and returns the [k] best
    chunks (6 unless told otherwise); [clear] deletes every stored entry
    and leaves the index usable. *)
Record VectorStore : Type := { persist_directory : string; store_api_key : string }.

(** Modelled from the spec: the entries of the index stored at [dir]; an
    empty or missing location has none. *)
Definition index_contents (w : World) (dir : string) : list StoredChunk :=
  default [] (indexes w !! dir).

(** Modelled from the spec: the marker of a populated location, an index
    was written there. *)
Definition index_exists (w : World) (dir : string) : bool :=
  bool_decide (is_Some (indexes w !! dir)).

Definition stored_chunks (texts : list string) (embeddings : list Embedding)
    (metadatas : list Metadata) : list StoredChunk :=
  map (fun x => {| chunk_text := x.1.1; chunk_embedding := x.1.2; chunk_metadata := x.2 |})
      (combine (combine texts embeddings) metadatas).

(** Modelled from the spec: [VectorStore.add_texts]. *)
Definition add_texts {S} `{HasWorld S} (vs : VectorStore) (texts : list string)
    (metadatas : list Metadata) : M S unit :=
  match texts with
  | [] => ret tt
  | _ =>
      embeddings <- call_service (EvEmbedding texts)
                      (fun tr => embed_documents svc tr texts) ;;
      modify_world (fun w =>
        let dir := persist_directory vs in
        set_indexes (<[dir := (index_contents w dir
                               ++ stored_chunks texts embeddings metadatas)%list]>
                       (indexes w)) w)
  end.

(** Modelled from the spec: [VectorStore.clear]. *)
Definition VectorStore_clear {S} `{HasWorld S} (vs : VectorStore) : M S unit :=
  modify_world (fun w => set_indexes (<[persist_directory vs := []]> (indexes w)) w).

Record Retriever : Type := { retriever_store : VectorStore; search_k : nat }.

(** Modelled from the spec: [VectorStore.get_retriever]. *)
Definition get_retriever (vs : VectorStore) : Retriever :=
  {| retriever_store := vs; search_k := 6 |}.

Definition to_document (c : StoredChunk) : Document :=
  {| page_content := chunk_text c; doc_metadata := chunk_metadata c |}.

(** Modelled from the spec: a query to the retriever. *)
Definition retriever_invoke {S} `{HasWorld S} (r : Retriever) (query : string)
  : M S (list Document) :=
  e <- call_service (EvEmbedding [query]) (fun tr => embed_query svc tr query) ;;
  w <- get_world ;;
  ret (map to_document
         (take (search_k r)
               (rank svc e (index_contents w (persist_directory (retriever_store r)))))).

(** ** [RAGChatbot] *)

(** The question-answering chain holds the retriever it was built with;
    the history it renders is read from the chatbot when it runs. *)
Record QAChain : Type := { chain_context : Retriever }.

(** The prompts, the chat model and the document processor are the
    collaborators of [Services]; the fields below are the ones the
    methods read and assign. *)
Record RAGChatbot : Type := {
  openai_api_key : string;
  document_base_manager : DocumentBaseManager;
  current_document_base : option string;
  vector_store : VectorStore;
  retriever : option Retriever;
  conversation_history : list (string * string);
  qa_chain : option QAChain;
  rewriter_chain : option unit
}.

Definition set_document_base_manager (m : DocumentBaseManager) (self : RAGChatbot) : RAGChatbot :=
  {| openai_api_key := openai_api_key self;
     document_base_manager := m;
     current_document_base := current_document_base self;
     vector_store := vector_store self;
     retriever := retriever self;
     conversation_history := conversation_history self;
     qa_chain := qa_chain self;
     rewriter_chain := rewriter_chain self |}.

Definition set_current_document_base (n : option string) (self : RAGChatbot) : RAGChatbot :=
  {| openai_api_key := openai_api_key self;
     document_base_manager := document_base_manager self;
     current_document_base := n;
     vector_store := vector_store self;
     retriever := retriever self;
     conversation_history := conversation_history self;
     qa_chain := qa_chain self;
     rewriter_chain := rewriter_chain self |}.

Definition set_vector_store (vs : VectorStore) (self : RAGChatbot) : RAGChatbot :=
  {| openai_api_key := openai_api_key self;
     document_base_manager := document_base_manager self;
     current_document_base := current_document_base self;
     vector_store := vs;
     retriever := retriever self;
     conversation_history := conversation_history self;
     qa_chain := qa_chain self;
     rewriter_chain := rewriter_chain self |}.

Definition set_retriever (r : option Retriever) (self : RAGChatbot) : RAGChatbot :=
  {| openai_api_key := openai_api_key self;
     document_base_manager := document_base_manager self;
     current_document_base := current_document_base self;
     vector_store := vector_store self;
     retriever := r;
     conversation_history := conversation_history self;
     qa_chain := qa_chain self;
     rewriter_chain := rewriter_chain self |}.

Definition set_conversation_history (h : list (string * string)) (self : RAGChatbot) : RAGChatbot :=
  {| openai_api_key := openai_api_key self;
     document_base_manager := document_base_manager self;
     current_document_base := current_document_base self;
     vector_store := vector_store self;
     retriever := retriever self;
     conversation_history := h;
     qa_chain := qa_chain self;
     rewriter_chain := rewriter_chain self |}.

Definition set_qa_chain (c : option QAChain) (self : RAGChatbot) : RAGChatbot :=
  {| openai_api_key := openai_api_key self;
     document_base_manager := document_base_manager self;
     current_document_base := current_document_base self;
     vector_store := vector_store self;
     retriever := retriever self;
     conversation_history := conversation_history self;
     qa_chain := c;
     rewriter_chain := rewriter_chain self |}.

Definition set_rewriter_chain (c : option unit) (self : RAGChatbot) : RAGChatbot :=
  {| openai_api_key := openai_api_key self;
     document_base_manager := document_base_manager self;
     current_document_base := current_document_base self;
     vector_store := vector_store self;
     retriever := retriever self;
     conversation_history := conversation_history self;
     qa_chain := qa_chain self;
     rewriter_chain := c |}.

(** A chatbot object together with the world it lives in. *)
Record BotState : Type := { b_self : RAGChatbot; b_world : World }.

#[export] Instance BotState_world : HasWorld BotState := {
  world_of := b_world;
  with_world w s := {| b_self := b_self s; b_world := w |}
}.

Definition modify_self (f : RAGChatbot -> RAGChatbot) : M BotState unit :=
  modify (fun s => {| b_self := f (b_self s); b_world := b_world s |}).

(** A call of a method of [self.document_base_manager]. *)
Definition on_manager {A} (m : M ManagerState A) : M BotState A :=
  zoom (fun s => {| m_self := document_base_manager (b_self s); m_world := b_world s |})
       (fun ms s => {| b_self := set_document_base_manager (m_self ms) (b_self s);
                       b_world := m_world ms |})
       m.

Definition lift_outcome {S A} (o : outcome A) : M S A := fun s => (o, s).

(** [enumerate(l)] *)
Definition enumerate {A} (l : list A) : list (nat * A) :=
  combine (seq 0 (length l)) l.

(** The two [+=] of one turn of the rendering loops. *)
Definition add_turn (formatted_history : string) (idx : nat) (question answer : string)
  : string :=
  let formatted_history :=
    formatted_history +:+ ("Question " +:+ Py.str_nat idx +:+ ": " +:+ question +:+ Py.nl) in
  formatted_history +:+ ("Answer " +:+ Py.str_nat idx +:+ ": " +:+ answer +:+ Py.nl +:+ Py.nl).

Definition _format_history_for_prompt (self : RAGChatbot) : string :=
  match conversation_history self with
  | [] => "No previous conversation."
  | _ =>
      let formatted_history :=
        fold_left (fun acc '(i, (question, answer)) => add_turn acc (i + 1) question answer)
                  (enumerate (conversation_history self)) "" in
      let formatted_history :=
        if (3 <? length (conversation_history self))%nat then
          let recent_history :=
            drop (length (conversation_history self) - 3) (conversation_history self) in
          fold_left (fun acc '(i, (question, answer)) =>
                       let idx := length (conversation_history self) - 3 + i + 1 in
                       add_turn acc idx question answer)
                    (enumerate recent_history) ("..." +:+ Py.nl)
        else formatted_history in
      Py.strip formatted_history
  end.

Definition _convert_to_langchain_messages (self : RAGChatbot) : list Message :=
  fold_left (fun messages '(question, answer) =>
               (messages ++ [HumanMessage question]) ++ [AIMessage answer])%list
            (conversation_history self) [].

(** [self.rewriter_chain.invoke({"history": ..., "question": ...})] *)
Definition rewriter_chain_invoke (self : RAGChatbot) (history : list Message)
    (question : string) : M BotState string :=
  match rewriter_chain self with
  | None => raise (OtherError "'NoneType' object has no attribute 'invoke'")
  | Some _ =>
      prompt <- lift_outcome (query_rewriter_prompt svc history question) ;;
      call_service (EvGeneration prompt) (fun tr => llm svc tr prompt)
  end.

Definition _rewrite_question (question : string) : M BotState string :=
  self <- gets b_self ;;
  match conversation_history self with
  | [] => ret question
  | _ =>
      try_except
        (let history_messages := _convert_to_langchain_messages self in
         rewriter_chain_invoke self history_messages question)
        (fun _ => ret question)
  end.

(** [chain.invoke(question)] of the chain built by [_create_qa_chain]:
    retrieve the context, render the history, fill the prompt, generate. *)
Definition qa_chain_invoke (chain : QAChain) (question : string) : M BotState string :=
  context <- retriever_invoke (chain_context chain) question ;;
  self <- gets b_self ;;
  let history := _format_history_for_prompt self in
  prompt <- lift_outcome (qa_prompt svc context question history) ;;
  call_service (EvGeneration prompt) (fun tr => llm svc tr prompt).

Definition _create_qa_chain : M BotState unit :=
  modify_self (set_rewriter_chain (Some tt)) ;;;
  self <- gets b_self ;;
  match retriever self with
  | None =>
      raise (TypeError
        "Expected a Runnable, callable or dict.Instead got an unsupported type: <class 'NoneType'>")
  | Some r => modify_self (set_qa_chain (Some {| chain_context := r |}))
  end.

Record StreamingCallbackHandler : Type := { text : string }.

(** The generator returned by [qa_chain.astream]: nothing of the chain
    has run yet. *)
Record Generator : Type := { gen_chain : QAChain; gen_input : string }.

Inductive AskResult : Type :=
| Answer (answer : string)
| Stream (handler : StreamingCallbackHandler) (generator : Generator).

Definition guidance : string :=
  "Please load documents first using the load_documents method.".

Definition ask (question : string) (streaming : bool) : M BotState AskResult :=
  self <- gets b_self ;;
  match retriever self, qa_chain self with
  | Some _, Some chain =>
      try_except
        (rewritten_question <- _rewrite_question question ;;
         if streaming then
           let handler := {| text := "" |} in
           let generator := {| gen_chain := chain; gen_input := rewritten_question |} in
           ret (Stream handler generator)
         else
           answer <- qa_chain_invoke chain rewritten_question ;;
           modify_self (fun self =>
             set_conversation_history
               (conversation_history self ++ [(question, answer)])%list self) ;;;
           ret (Answer answer))
        (fun e => ret (Answer ("Error generating answer: " +:+ str_exn e)))
  | _, _ => ret (Answer guidance)
  end.

(** Running the generator of a streaming [ask] to its end, as its
    consumer does; the handler has then received the whole text. *)
Definition consume (generator : Generator) : M BotState StreamingCallbackHandler :=
  answer <- qa_chain_invoke (gen_chain generator) (gen_input generator) ;;
  ret {| text := answer |}.

Definition clear_documents : M BotState unit :=
  self <- gets b_self ;;
  VectorStore_clear (vector_store self) ;;;
  modify_self (set_retriever None) ;;;
  modify_self (set_qa_chain None).

Definition clear_history : M BotState unit :=
  modify_self (set_conversation_history []).

Definition _switch_document_base (document_base_name : string) : M BotState unit :=
  base_path <- on_manager (get_document_base_path document_base_name) ;;
  modify_self (fun self =>
    set_vector_store {| persist_directory := base_path;
                        store_api_key := openai_api_key self |} self) ;;;
  modify_self (set_current_document_base (Some document_base_name)) ;;;
  modify_self (fun self => set_retriever (Some (get_retriever (vector_store self))) self) ;;;
  _create_qa_chain.

(** What the two processing loops of [load_documents] accumulate. *)
Record Batch : Type := {
  processed_chunks : list string;
  metadatas : list Metadata;
  file_count : Z
}.

Definition empty_batch : Batch :=
  {| processed_chunks := []; metadatas := []; file_count := 0 |}.

(** One processed file: a metadata record per chunk, the chunks and the
    metadata appended, the file counted. *)
Definition extend_batch (source_name path : string) (chunks : list string) (b : Batch)
  : Batch :=
  let file_metadatas := map (fun _ => {| source := source_name; file_path := path |}) chunks in
  {| processed_chunks := (processed_chunks b ++ chunks)%list;
     metadatas := (metadatas b ++ file_metadatas)%list;
     file_count := file_count b + 1 |}.

(** The loop over [file_paths]; a file that fails is skipped. *)
Fixpoint process_files (file_paths : list string) (b : Batch) : M BotState Batch :=
  match file_paths with
  | [] => ret b
  | path :: rest =>
      b' <- try_except
              (chunks <- ask_service (fun tr => process_file svc tr path) ;;
               let file_name := Py.os_path_basename path in
               ret (extend_batch file_name path chunks b))
              (fun _ => ret b) ;;
      process_files rest b'
  end.

(** The loop over the files found in [directory_path]. *)
Definition process_found (directory_path : string)
    (processed_files : list (string * list string)) (b : Batch) : Batch :=
  fold_left (fun b '(rel_path, chunks) =>
               extend_batch rel_path (Py.os_path_join directory_path rel_path) chunks b)
            processed_files b.

Definition opt_eqb (a b : option string) : bool := bool_decide (a = b).

Definition load_documents (file_paths : list string) (directory_path : option string)
    (document_base_name : option string) : M BotState nat :=
  (match document_base_name with
   | Some name =>
       if Py.truthy name then
         self <- gets b_self ;;
         if negb (opt_eqb (Some name) (current_document_base self)) then
           try_except_KeyError
             (base_path <- on_manager (get_document_base_path name) ;;
              _switch_document_base name)
             (base_path <- on_manager (create_document_base name "") ;;
              modify_self (set_current_document_base (Some name)) ;;;
              modify_self (fun self =>
                set_vector_store {| persist_directory := base_path;
                                    store_api_key := openai_api_key self |} self))
         else ret tt
       else ret tt
   | None => ret tt
   end) ;;;
  b <- process_files file_paths empty_batch ;;
  b <- match directory_path with
       | Some dir =>
           if Py.truthy dir then
             try_except
               (processed_files <- ask_service (fun tr => process_directory svc tr dir) ;;
                ret (process_found dir processed_files b))
               (fun _ => ret b)
           else ret b
       | None => ret b
       end ;;
  (match processed_chunks b with
   | [] => ret tt
   | _ =>
       self <- gets b_self ;;
       add_texts (vector_store self) (processed_chunks b) (metadatas b) ;;;
       (match current_document_base self with
        | Some current =>
            if Py.truthy current then
              on_manager (update_document_base current (file_count b)
                            (Z.of_nat (length (processed_chunks b))) file_paths)
            else ret tt
        | None => ret tt
        end) ;;;
       modify_self (fun self => set_retriever (Some (get_retriever (vector_store self))) self) ;;;
       _create_qa_chain
   end) ;;;
  ret (length (processed_chunks b)).

(** [a or b] on optional strings. *)
Definition py_or (a b : option string) : option string :=
  if Py.truthy_opt a then a else b.

(** [RAGChatbot.__init__]; [environ_key] is [os.environ.get("OPENAI_API_KEY")],
    and a missing [document_base_manager] is built over "./document_bases". *)
Definition RAGChatbot_init (persist_directory_ : string) (openai_api_key_ : option string)
    (environ_key : option string) (document_base_name : option string)
    (document_base_manager_ : option DocumentBaseManager) (w : World)
  : outcome RAGChatbot * World :=
  match py_or openai_api_key_ environ_key with
  | Some key =>
      if Py.truthy key then
        let ms :=
          match document_base_manager_ with
          | Some m => {| m_self := m; m_world := w |}
          | None => DocumentBaseManager_init "./document_bases" w
          end in
        let manager := m_self ms in
        let w := m_world ms in
        let '(current, dir, chroma_exists) :=
          match document_base_name with
          | Some name =>
              if Py.truthy name then
                match get_document_base_path name ms with
                | (Return path, _) => (Some name, path, index_exists w path)
                | (Raise _, _) => (Some name, persist_directory_, false)
                end
              else (None, persist_directory_, false)
          | None => (None, persist_directory_, false)
          end in
        let vs := {| persist_directory := dir; store_api_key := key |} in
        let self :=
          {| openai_api_key := key;
             document_base_manager := manager;
             current_document_base := current;
             vector_store := vs;
             retriever := None;
             conversation_history := [];
             qa_chain := None;
             rewriter_chain := None |} in
        if chroma_exists then
          match (modify_self (set_retriever (Some (get_retriever vs))) ;;; _create_qa_chain)
                  {| b_self := self; b_world := w |} with
          | (Return _, s) => (Return (b_self s), b_world s)
          | (Raise e, s) => (Raise e, b_world s)
          end
        else (Return self, w)
      else (Raise (ValueError "OpenAI API key is required."), w)
  | None => (Raise (ValueError "OpenAI API key is required."), w)
  end.

(** ** The rest of the two classes *)

(** One entry of [list_document_bases]. *)
Record BaseSummary : Type := {
  summary_name : string;
  summary_description : string;
  summary_created_at : string;
  summary_updated_at : string;
  summary_num_documents : Z;
  summary_num_chunks : Z
}.

Definition summary_of (name : string) (info : BaseInfo) : BaseSummary :=
  {| summary_name := name;
     summary_description := description info;
     summary_created_at := created_at info;
     summary_updated_at := updated_at info;
     summary_num_documents := num_documents info;
     summary_num_chunks := num_chunks info |}.

(** [DocumentBaseManager.list_document_bases]: one summary per entry of
    the registry. The entries come in the order of the map, which is not
    the insertion order a Python dictionary iterates in. *)
Definition list_document_bases (self : DocumentBaseManager) : list BaseSummary :=
  (fun kv => summary_of kv.1 kv.2) <$> map_to_list (metadata self).

(** [RAGChatbot.list_document_bases] *)
Definition RAGChatbot_list_document_bases (self : RAGChatbot) : list BaseSummary :=
  list_document_bases (document_base_manager self).

(** [RAGChatbot.get_current_document_base] *)
Definition get_current_document_base (self : RAGChatbot) : option string :=
  current_document_base self.

(** [StreamingCallbackHandler.on_llm_new_token] and [get_text] *)
Definition on_llm_new_token (token : string) (handler : StreamingCallbackHandler)
  : StreamingCallbackHandler :=
  {| text := text handler +:+ token |}.

Definition get_text (handler : StreamingCallbackHandler) : string := text handler.

(** The parameters of [ask] that a caller may pass by keyword. *)
Definition ask_keywords : list string := ["question"; "streaming"].

(** A call [self.ask(question, streaming=streaming, k=...)] with further
    keyword arguments [extra]: a keyword that [ask] does not have is
    refused with a [TypeError] before anything of [ask] runs. *)
Definition call_ask (question : string) (streaming : bool) (extra : list string)
  : M BotState AskResult :=
  match filter (fun k => k ∉ ask_keywords) extra with
  | k :: _ =>
      raise (TypeError
        ("RAGChatbot.ask() got an unexpected keyword argument '" +:+ k +:+ "'"))
  | [] => ask question streaming
  end.

(** [RAGChatbot.ask_sync]: both branches make the same call, and pass
    [top_k] on by keyword. *)
Definition ask_sync (question : string) (streaming : bool) (top_k : option Z)
  : M BotState AskResult :=
  if streaming then call_ask question false ["top_k"]
  else call_ask question false ["top_k"].

(** ** The host application, [app.py] *)

(** What [ask_question] reads of [st.session_state]. *)
Record Session : Type := {
  chatbot : option RAGChatbot;
  documents_loaded : bool;
  session_top_k : option Z;
  session_world : World
}.

(** [ask_question]: the answer shown to the user, and the session after. *)
Definition ask_question (question : string) (ss : Session) : AskResult * Session :=
  match chatbot ss with
  | None => (Answer "Please initialize the chatbot with your OpenAI API key first.", ss)
  | Some bot =>
      if negb (documents_loaded ss) then
        (Answer "Please upload and process documents before asking questions.", ss)
      else
        let top_k := default 6%Z (session_top_k ss) in
        let '(r, s') := ask_sync question false (Some top_k)
                          {| b_self := bot; b_world := session_world ss |} in
        let ss' := {| chatbot := Some (b_self s');
                      documents_loaded := documents_loaded ss;
                      session_top_k := session_top_k ss;
                      session_world := b_world s' |} in
        match r with
        | Return answer => (answer, ss')
        | Raise e => (Answer ("Error generating response: " +:+ str_exn e), ss')
        end
  end.

(** What the loop over [file_paths] computes, given the trace it runs
    under: the files that fail are left out. *)
Definition processed_batch (tr : list Event) (file_paths : list string) (b : Batch) : Batch :=
  fold_left (fun b path =>
               match process_file svc tr path with
               | Return chunks => extend_batch (Py.os_path_basename path) path chunks b
               | Raise _ => b
               end)
            file_paths b.

(** The files of [file_paths] that are processed without an error. *)
Definition processes (tr : list Event) (path : string) : bool :=
  match process_file svc tr path with
  | Return _ => true
  | Raise _ => false
  end.

Definition processed_paths (tr : list Event) (file_paths : list string) : list string :=
  filter (fun path => processes tr path = true) file_paths.

(** The chunks a file contributes: none when it fails. *)
Definition chunks_of (tr : list Event) (path : string) : list string :=
  match process_file svc tr path with
  | Return chunks => chunks
  | Raise _ => []
  end.

End Program.

(** ** The rendering of the history, as the specification words it *)

(** One turn, as a "Question i / Answer i" pair. *)
Definition render_turn (idx : nat) (turn : string * string) : string :=
  ("Question " +:+ Py.str_nat idx +:+ ": " +:+ turn.1 +:+ Py.nl)
  +:+ ("Answer " +:+ Py.str_nat idx +:+ ": " +:+ turn.2 +:+ Py.nl +:+ Py.nl).

(** Turns in order, numbered from [first]. *)
Fixpoint render_turns (first : nat) (turns : list (string * string)) : string :=
  match turns with
  | [] => ""
  | turn :: rest => render_turn first turn +:+ render_turns (S first) rest
  end.

Fixpoint all_space (s : string) : bool :=
  match s with
  | EmptyString => true
  | String c s' => Py.isspace c && all_space s'
  end.

(** ** Notions used by the statements *)

(** The file names recorded for a base; none when the key is missing. *)
Definition files_of (info : BaseInfo) : list string := default [] (documents info).

(** [m] never changes [self.conversation_history], whatever it returns
    or raises. *)
Definition keeps_history {A} (m : M BotState A) : Prop :=
  forall s, conversation_history (b_self (m s).2) = conversation_history (b_self s).

Create HintDb history discriminated.

(** The registry file of a manager is where its constructor puts it. *)
Definition standard_manager (m : DocumentBaseManager) : Prop :=
  metadata_file m = Py.os_path_join (base_directory m) "metadata.json".

(** The operations that change the registry. *)
Inductive RegistryOp : Type :=
| OpCreate (name description : string)
| OpUpdate (name : string) (num_documents_ num_chunks_ : Z) (documents_ : list string)
| OpDelete (name : string)
| OpRename (old_name new_name : string).

Definition run_op (svc : Services) (op : RegistryOp) : M ManagerState unit :=
  match op with
  | OpCreate name description =>
      bind (create_document_base svc name description) (fun _ => ret tt)
  | OpUpdate name nd nc docs => update_document_base svc name nd nc docs
  | OpDelete name => delete_document_base svc name
  | OpRename old_name new_name => rename_document_base svc old_name new_name
  end.

(** The names an operation is about. *)
Definition op_names (op : RegistryOp) : list string :=
  match op with
  | OpCreate name _ => [name]
  | OpUpdate name _ _ _ => [name]
  | OpDelete name => [name]
  | OpRename old_name new_name => [old_name; new_name]
  end.

(** Every recorded document is a file name: it has no path separator. *)
Definition names_only (m : gmap string BaseInfo) : Prop :=
  forall name info, m !! name = Some info ->
    Forall (fun f => Py.has_sep f = false) (files_of info).

(** The chain, when there is one, was built over the retriever the
    chatbot holds, and with it the rewriter chain; without a retriever
    there is no chain. *)
Definition chain_follows_retriever (self : RAGChatbot) : Prop :=
  qa_chain self = (fun r => {| chain_context := r |}) <$> retriever self
  /\ (is_Some (qa_chain self) -> rewriter_chain self = Some tt).

(** The chatbot holds a key, and its vector store was given this key. *)
Definition holds_key (self : RAGChatbot) : Prop :=
  Py.truthy (openai_api_key self) = true
  /\ store_api_key (vector_store self) = openai_api_key self.

(** A call to the embedding service or to the generative service. *)
Definition service_call (e : Event) : bool :=
  match e with
  | EvEmbedding _ | EvGeneration _ => true
  | _ => false
  end.

(** [m] keeps the property [I] of the chatbot, whatever it returns or
    raises. *)
Definition preserves (I : RAGChatbot -> Prop) {A} (m : M BotState A) : Prop :=
  forall s, I (b_self s) -> I (b_self (m s).2).

(** What an operation that returns has made of the registry map [m]. *)
Definition registry_step (op : RegistryOp) (m m' : gmap string BaseInfo) : Prop :=
  match op with
  | OpCreate name description_ =>
      m !! name = None
      /\ exists created updated dir_name,
           m' = <[name := {| created_at := created;
                             updated_at := updated;
                             description := description_;
                             directory := dir_name;
                             num_documents := 0;
                             num_chunks := 0;
                             documents := Some [] |}]> m
  | OpUpdate name nd nc docs =>
      exists info now,
        m !! name = Some info /\ m' = <[name := updated_info now nd nc docs info]> m
  | OpDelete name => is_Some (m !! name) /\ m' = delete name m
  | OpRename old_name new_name =>
      exists info now,
        m !! old_name = Some info /\ m !! new_name = None
        /\ m' = delete old_name (<[new_name := set_updated_at now info]> m)
  end.

(** The chatbot is in order: its chain follows its retriever and it
    holds its key. *)
Definition in_order (self : RAGChatbot) : Prop :=
  chain_follows_retriever self /\ holds_key self.

Create HintDb in_order discriminated.

(** ** Reachable states *)

(** The states an orchestrator goes through: built by its constructor,
    then driven through its public methods, the consumption of a
    streaming answer, and the registry operations its host performs on the
    manager it shares with it. *)
Inductive reachable (svc : Services) : BotState -> Prop :=
| reach_init pd key env name mgr w self w' :
    RAGChatbot_init pd key env name mgr w = (Return self, w') ->
    reachable svc {| b_self := self; b_world := w' |}
| reach_load_documents s file_paths directory_path name r s' :
    reachable svc s ->
    load_documents svc file_paths directory_path name s = (r, s') ->
    reachable svc s'
| reach_ask s question streaming r s' :
    reachable svc s ->
    ask svc question streaming s = (r, s') ->
    reachable svc s'
| reach_consume s generator r s' :
    reachable svc s ->
    consume svc generator s = (r, s') ->
    reachable svc s'
| reach_clear_documents s r s' :
    reachable svc s ->
    clear_documents s = (r, s') ->
    reachable svc s'
| reach_clear_history s r s' :
    reachable svc s ->
    clear_history s = (r, s') ->
    reachable svc s'
| reach_create s name description r s' :
    reachable svc s ->
    on_manager (create_document_base svc name description) s = (r, s') ->
    reachable svc s'
| reach_delete s name r s' :
    reachable svc s ->
    on_manager (delete_document_base svc name) s = (r, s') ->
    reachable svc s'.

(** ** A concrete session *)

Module Scenario.

Definition rewriting_instruction : string := "Rewrite the question as a standalone question.".

(** Collaborators with fixed answers: [rewriting] is what the generative
    service does with a rewriting prompt, [generation] what it does with
    any other prompt, [removal] what [shutil.rmtree] does. *)
Definition services (rewriting generation : outcome string) (removal : option exn)
  : Services :=
  {| time_time tr := (1700000000 + Z.of_nat (length tr))%Z;
     now_isoformat tr := "2024-01-01T00:00:" +:+ Py.str_nat (length tr);
     rmtree_error _ _ := removal;
     process_file _ path := Return ["chunk of " +:+ path];
     process_directory _ _ := Return [];
     embed_documents _ texts := Return (map (fun _ => [0%Z]) texts);
     embed_query _ _ := Return [0%Z];
     rank _ chunks := chunks;
     query_rewriter_prompt history question :=
       Return (SystemMessage rewriting_instruction :: history ++ [HumanMessage question])%list;
     qa_prompt context question history :=
       Return [SystemMessage history; HumanMessage question];
     llm _ prompt :=
       match prompt with
       | SystemMessage instruction :: _ =>
           if String.eqb instruction rewriting_instruction then rewriting else generation
       | _ => generation
       end |}.

Definition svc : Services :=
  services (Return "Where is the Eiffel Tower?") (Return "In Paris.") None.

Definition svc_rewriter_down : Services :=
  services (Raise (OtherError "rate limit")) (Return "In Paris.") None.

Definition svc_generation_down : Services :=
  services (Return "Where is the Eiffel Tower?") (Raise (OtherError "rate limit")) None.

Definition svc_rmtree_fails : Services :=
  services (Return "Where is the Eiffel Tower?") (Return "In Paris.")
           (Some (OtherError "[Errno 13] Permission denied")).

Definition empty_world : World :=
  {| directories := ∅; metadata_files := ∅; indexes := ∅; trace := [] |}.

Definition state_of (r : outcome RAGChatbot * World) (otherwise : BotState) : BotState :=
  match r with
  | (Return self, w) => {| b_self := self; b_world := w |}
  | (Raise _, _) => otherwise
  end.

(** A registry holding the base "papers". *)
Definition registry (sv : Services) : ManagerState :=
  (create_document_base sv "papers" "Reading list"
     (DocumentBaseManager_init "./document_bases" empty_world)).2.

(** A chatbot built without a base, over that registry: no documents. *)
Definition fresh (sv : Services) : BotState :=
  let r := registry sv in
  state_of (RAGChatbot_init "./chroma_db" (Some "sk-test") None None
              (Some (m_self r)) (m_world r))
           {| b_self := {| openai_api_key := "";
                           document_base_manager := m_self r;
                           current_document_base := None;
                           vector_store := {| persist_directory := ""; store_api_key := "" |};
                           retriever := None;
                           conversation_history := [];
                           qa_chain := None;
                           rewriter_chain := None |};
              b_world := m_world r |}.

(** One file ingested: ready. *)
Definition loaded (sv : Services) : BotState :=
  (load_documents sv ["/tmp/upload/paris.pdf"] None None (fresh sv)).2.

(** One question answered: one turn of history. *)
Definition asked (sv : Services) : BotState :=
  (ask sv "Where is the Louvre?" false (loaded sv)).2.

Definition follow_up : string := "And the Eiffel Tower?".

(** The retriever and the chain of the session, built over the default
    storage location. *)
Definition the_retriever : Retriever :=
  get_retriever {| persist_directory := "./chroma_db"; store_api_key := "sk-test" |}.

Definition the_chain : QAChain := {| chain_context := the_retriever |}.

(** The record of "papers" in the registry. *)
Definition papers_info : BaseInfo :=
  {| created_at := "2024-01-01T00:00:3";
     updated_at := "2024-01-01T00:00:4";
     description := "Reading list";
     directory := "papers_1700000001";
     num_documents := 0;
     num_chunks := 0;
     documents := Some [] |}.

(** The base "papers" made the active one, by name. *)
Definition switched (sv : Services) : BotState :=
  (_switch_document_base "papers" (asked sv)).2.

(** The same switch, made by [load_documents] on its way. *)
Definition switched_by_load (sv : Services) : BotState :=
  (load_documents sv [] None (Some "papers") (asked sv)).2.

(** A chatbot with seven turns behind it. *)
Definition seven_turns : RAGChatbot :=
  set_conversation_history
    [("q1", "a1"); ("q2", "a2"); ("q3", "a3"); ("q4", "a4");
     ("q5", "a5"); ("q6", "a6"); ("q7", "a7")]
    (b_self (loaded svc)).

Definition two_turns : RAGChatbot :=
  set_conversation_history [("q1", "a1"); ("q2", "a2 ")] (b_self (loaded svc)).

(** The same collaborators with another clock. *)
Definition with_clock (clock : list Event -> Z) (sv : Services) : Services :=
  {| time_time := clock;
     now_isoformat := now_isoformat sv;
     rmtree_error := rmtree_error sv;
     process_file := process_file sv;
     process_directory := process_directory sv;
     embed_documents := embed_documents sv;
     embed_query := embed_query sv;
     rank := rank sv;
     query_rewriter_prompt := query_rewriter_prompt sv;
     qa_prompt := qa_prompt sv;
     llm := llm sv |}.

(** The same collaborators with another document processor. *)
Definition with_processor (processor : list Event -> string -> outcome (list string))
    (sv : Services) : Services :=
  {| time_time := time_time sv;
     now_isoformat := now_isoformat sv;
     rmtree_error := rmtree_error sv;
     process_file := processor;
     process_directory := process_directory sv;
     embed_documents := embed_documents sv;
     embed_query := embed_query sv;
     rank := rank sv;
     query_rewriter_prompt := query_rewriter_prompt sv;
     qa_prompt := qa_prompt sv;
     llm := llm sv |}.

(** A clock that stands still. *)
Definition svc_frozen_clock : Services := with_clock (fun _ => 1700000000%Z) svc.

(** A processor that cannot read one of the files. *)
Definition svc_broken_file : Services :=
  with_processor
    (fun _ path =>
       if String.eqb path "/tmp/upload/broken.pdf"
       then Raise (OtherError "cannot read the file")
       else Return ["first chunk of " +:+ path; "second chunk of " +:+ path])
    svc.

(** A registry without a base. *)
Definition empty_registry : ManagerState :=
  DocumentBaseManager_init "./document_bases" empty_world.

(** The registry after "papers" was created and deleted. *)
Definition emptied_registry : ManagerState :=
  (delete_document_base svc "papers" (registry svc)).2.

(** A chatbot built on the name of a base that is not registered. *)
Definition ghost : BotState :=
  state_of (RAGChatbot_init "./chroma_db" (Some "sk-test") None (Some "ghost")
              (Some (m_self (registry svc))) (m_world (registry svc)))
           (fresh svc).

(** The session of the host once a question was answered. *)
Definition session : Session :=
  {| chatbot := Some (b_self (asked svc));
     documents_loaded := true;
     session_top_k := Some 4%Z;
     session_world := b_world (asked svc) |}.

(** Four turns that end like [seven_turns]. *)
Definition other_seven_turns : RAGChatbot :=
  set_conversation_history
    [("x1", "y1"); ("x2", "y2"); ("x3", "y3"); ("x4", "y4");
     ("q5", "a5"); ("q6", "a6"); ("q7", "a7")]
    (b_self (loaded svc)).

End Scenario.

(** * Properties *)

Section StringFacts.

Lemma str_app_cons (x : ascii) (a b : string) : String x a +:+ b = String x (a +:+ b).
Proof. reflexivity. Qed.

Lemma str_app_nil (b : string) : "" +:+ b = b.
Proof. reflexivity. Qed.

Lemma str_app_assoc (a b c : string) : (a +:+ b) +:+ c = a +:+ (b +:+ c).
Proof.
  induction a as [|x a IH]; [done|].
  rewrite !str_app_cons. by f_equal.
Qed.

Lemma str_app_empty_r (a : string) : a +:+ "" = a.
Proof.
  induction a as [|x a IH]; [done|].
  rewrite str_app_cons. by f_equal.
Qed.

Lemma lstrip_keeps (c : ascii) (s : string) :
  Py.isspace c = false -> Py.lstrip (String c s) = String c s.
Proof. intros H. simpl. by rewrite H. Qed.

(** [rstrip] removes a suffix of white space, and nothing else. *)
Lemma rstrip_suffix (s : string) :
  exists t, all_space t = true /\ Py.rstrip s +:+ t = s.
Proof.
  induction s as [|c s [t [Ht IH]]]; simpl.
  - by exists "".
  - destruct (Py.rstrip s) as [|d r] eqn:E.
    + rewrite str_app_nil in IH. subst t.
      destruct (Py.isspace c) eqn:Hc.
      * exists (String c s). simpl. by rewrite Hc, Ht.
      * exists s. by rewrite str_app_cons, str_app_nil.
    + exists t. split; [done|]. rewrite str_app_cons. by f_equal.
Qed.

(** What [rstrip] returns has no white space left at its end. *)
Lemma rstrip_idempotent (s : string) : Py.rstrip (Py.rstrip s) = Py.rstrip s.
Proof.
  induction s as [|c s IH]; simpl; [done|].
  destruct (Py.rstrip s) as [|d r] eqn:E.
  - destruct (Py.isspace c) eqn:Hc; simpl; [done | by rewrite Hc].
  - remember (String d r) as u. simpl. rewrite IH. by subst u.
Qed.

End StringFacts.

(** ** The history rendered into the generation prompt *)

Section HistoryRendering.

Lemma add_turn_render (acc : string) (idx : nat) (q a : string) :
  add_turn acc idx q a = acc +:+ render_turn idx (q, a).
Proof. unfold add_turn, render_turn. simpl. by rewrite str_app_assoc. Qed.

(** A rendering loop appends the turns in order, the turn met at
    position [i] under the number [g i]. *)
Lemma fold_add_turn (g : nat -> nat) (b : nat) (l : list (string * string)) :
  (forall i, g i = b + i) ->
  forall (k : nat) (acc : string),
    fold_left (fun acc '(i, (q, a)) => add_turn acc (g i) q a)
              (combine (seq k (length l)) l) acc
    = acc +:+ render_turns (b + k) l.
Proof.
  intros Hg. induction l as [|[q a] l IH]; intros k acc; simpl.
  - by rewrite str_app_empty_r.
  - rewrite IH, add_turn_render, Hg, str_app_assoc.
    by rewrite Nat.add_succ_r.
Qed.

Lemma render_turn_head (idx : nat) (turn : string * string) (rest : string) :
  exists x, render_turn idx turn +:+ rest = String "Q" x.
Proof. eexists. reflexivity. Qed.

Lemma strip_keeps_head (c : ascii) (s : string) :
  Py.isspace c = false ->
  exists trailing,
    all_space trailing = true /\ Py.strip (String c s) +:+ trailing = String c s.
Proof.
  intros H. unfold Py.strip. rewrite lstrip_keeps by done. apply rstrip_suffix.
Qed.

Lemma strip_stripped (s : string) : Py.rstrip (Py.strip s) = Py.strip s.
Proof. apply rstrip_idempotent. Qed.

Lemma three_elements {A} (l : list A) :
  length l = 3 -> exists a b c, l = [a; b; c].
Proof.
  destruct l as [|a [|b [|c [|d l]]]]; simpl; intros H; try lia. eauto.
Qed.

(** C6: a history of one to three turns is rendered whole, as
    "Question i / Answer i" pairs numbered from 1 in order; a history of
    more than three turns is rendered as the ellipsis line followed by
    exactly its three last turns, numbered n-2, n-1 and n, their positions
    in the whole history. In both cases the rendering is this text without
    the white space at its end. A history without turns is rendered as the
    fixed sentence. *)
Theorem format_history_window (self : RAGChatbot) :
  let h := conversation_history self in
  let n := length h in
  let out := _format_history_for_prompt self in
  (n = 0 -> out = "No previous conversation.")
  /\ (0 < n <= 3 ->
      exists trailing,
        all_space trailing = true
        /\ out +:+ trailing = render_turns 1 h
        /\ Py.rstrip out = out)
  /\ (3 < n ->
      exists t1 t2 t3 trailing,
        drop (n - 3) h = [t1; t2; t3]
        /\ all_space trailing = true
        /\ out +:+ trailing
           = ("..." +:+ Py.nl)
             +:+ render_turn (n - 2) t1 +:+ render_turn (n - 1) t2
             +:+ render_turn n t3
        /\ Py.rstrip out = out).
Proof.
  cbv zeta. unfold _format_history_for_prompt.
  generalize (conversation_history self) as h. intros h.
  split; [|split].
  - intros Hn. destruct h; [done | discriminate].
  - intros [Hpos Hle].
    destruct h as [|t r] eqn:Eh; [simpl in Hpos; lia|]. rewrite <- Eh in *.
    destruct (3 <? length h)%nat eqn:E3; [apply Nat.ltb_lt in E3; lia|].
    unfold enumerate.
    rewrite (fold_add_turn (fun i => i + 1) 1) by (intros; lia).
    rewrite str_app_nil, Eh. simpl render_turns.
    destruct (render_turn_head 1 t (render_turns 2 r)) as [x ->].
    destruct (strip_keeps_head "Q" x eq_refl) as [trailing [Hs Ht]].
    exists trailing. split; [done|]. split; [done|]. apply strip_stripped.
  - intros Hn.
    destruct h as [|t r] eqn:Eh; [simpl in Hn; lia|]. rewrite <- Eh in *.
    destruct (3 <? length h)%nat eqn:E3; [|apply Nat.ltb_ge in E3; lia].
    destruct (three_elements (drop (length h - 3) h)) as (t1 & t2 & t3 & Hd).
    { rewrite length_drop. lia. }
    unfold enumerate.
    rewrite (fold_add_turn (fun i => length h - 3 + i + 1) (length h - 2))
      by (intros; lia).
    rewrite Hd. simpl render_turns.
    rewrite Nat.add_0_r, str_app_empty_r.
    replace (S (length h - 2)) with (length h - 1) by lia.
    replace (S (length h - 1)) with (length h) by lia.
    destruct (strip_keeps_head "." (".." +:+ Py.nl +:+ render_turn (length h - 2) t1
                +:+ render_turn (length h - 1) t2 +:+ render_turn (length h) t3) eq_refl)
      as [trailing [Hs Ht]].
    exists t1, t2, t3, trailing.
    split; [done|]. split; [done|]. split; [|apply strip_stripped].
    rewrite <- Ht at 2. reflexivity.
Qed.

End HistoryRendering.

(** ** Methods that leave the conversation history alone *)

Section KeepsHistory.

Variable svc : Services.

Lemma keeps_ret {A} (a : A) : keeps_history (ret a).
Proof. by intros s. Qed.

Lemma keeps_raise {A} (e : exn) : keeps_history (@raise BotState A e).
Proof. by intros s. Qed.

Lemma keeps_lift_outcome {A} (o : outcome A) : keeps_history (lift_outcome o).
Proof. by intros s. Qed.

Lemma keeps_gets {A} (f : BotState -> A) : keeps_history (gets f).
Proof. by intros s. Qed.

Lemma keeps_bind {A B} (m : M BotState A) (k : A -> M BotState B) :
  keeps_history m -> (forall a, keeps_history (k a)) -> keeps_history (bind m k).
Proof.
  intros Hm Hk s. unfold bind. specialize (Hm s).
  destruct (m s) as [[a|e] s1]; simpl in *; [|done].
  by rewrite Hk.
Qed.

Lemma keeps_try_except {A} (m : M BotState A) (h : exn -> M BotState A) :
  keeps_history m -> (forall e, keeps_history (h e)) -> keeps_history (try_except m h).
Proof.
  intros Hm Hh s. unfold try_except. specialize (Hm s).
  destruct (m s) as [[a|e] s1]; simpl in *; [done|].
  by rewrite Hh.
Qed.

Lemma keeps_try_except_KeyError {A} (m h : M BotState A) :
  keeps_history m -> keeps_history h -> keeps_history (try_except_KeyError m h).
Proof.
  intros Hm Hh s. unfold try_except_KeyError. specialize (Hm s).
  destruct (m s) as [[a|e] s1]; simpl in *; [done|].
  destruct (is_KeyError e); simpl; [by rewrite Hh | done].
Qed.

Lemma keeps_on_manager {A} (m : M ManagerState A) : keeps_history (on_manager m).
Proof.
  intros s. unfold on_manager, zoom.
  by destruct (m _) as [r t].
Qed.

Lemma keeps_modify_world (f : World -> World) : keeps_history (modify_world f).
Proof. by intros s. Qed.

Lemma keeps_call_service {A} (ev : Event) (f : list Event -> outcome A) :
  keeps_history (call_service ev f).
Proof. by intros s. Qed.

Lemma keeps_ask_service {A} (f : list Event -> outcome A) : keeps_history (ask_service f).
Proof. by intros s. Qed.

Lemma keeps_modify_self (f : RAGChatbot -> RAGChatbot) :
  (forall self, conversation_history (f self) = conversation_history self) ->
  keeps_history (modify_self f).
Proof. intros Hf s. simpl. apply Hf. Qed.

Hint Resolve keeps_ret keeps_raise keeps_lift_outcome keeps_gets keeps_on_manager
  keeps_modify_world keeps_call_service keeps_ask_service : history.
Hint Extern 2 (keeps_history (modify_self _)) =>
  apply keeps_modify_self; intros; reflexivity : history.

(** Go through a method along its structure; the leaves are closed from
    the hint database and from the hypotheses. *)
Ltac keeps :=
  repeat first
    [ solve [auto with history]
    | lazymatch goal with
      | |- keeps_history (bind _ _) => apply keeps_bind; [|intros]
      | |- keeps_history (try_except_KeyError _ _) => apply keeps_try_except_KeyError
      | |- keeps_history (try_except _ _) => apply keeps_try_except; [|intros]
      | |- keeps_history (match ?x with _ => _ end) => destruct x
      end ].

Lemma keeps_create_qa_chain : keeps_history _create_qa_chain.
Proof. unfold _create_qa_chain. keeps. Qed.

Lemma keeps_switch_document_base (name : string) :
  keeps_history (_switch_document_base name).
Proof.
  pose proof keeps_create_qa_chain.
  unfold _switch_document_base. keeps.
Qed.

Lemma keeps_add_texts (vs : VectorStore) texts metadatas :
  keeps_history (add_texts svc vs texts metadatas).
Proof. unfold add_texts. keeps. Qed.

Lemma keeps_process_files (file_paths : list string) :
  forall b, keeps_history (process_files svc file_paths b).
Proof.
  induction file_paths as [|path rest IH]; intros b; simpl; keeps.
Qed.

Lemma keeps_load_documents file_paths directory_path document_base_name :
  keeps_history (load_documents svc file_paths directory_path document_base_name).
Proof.
  pose proof keeps_create_qa_chain.
  pose proof keeps_switch_document_base.
  pose proof keeps_add_texts.
  pose proof keeps_process_files.
  unfold load_documents. keeps.
Qed.

Lemma keeps_clear_documents : keeps_history clear_documents.
Proof. unfold clear_documents, VectorStore_clear. keeps. Qed.

End KeepsHistory.

(** ** Asking *)

Section Asking.

Variable svc : Services.

(** The rewriter returns a question and never raises; it leaves the
    chatbot as it was. *)
Lemma rewrite_question_returns (question : string) (s : BotState) :
  exists rewritten s',
    _rewrite_question svc question s = (Return rewritten, s')
    /\ b_self s' = b_self s.
Proof.
  unfold _rewrite_question, bind, gets.
  destruct (conversation_history (b_self s)) as [|turn rest]; [by eauto|].
  unfold try_except, rewriter_chain_invoke.
  destruct (rewriter_chain (b_self s)); [|by eauto].
  unfold bind, lift_outcome, call_service.
  destruct (query_rewriter_prompt svc _ question) as [prompt|e]; [|by eauto].
  destruct (llm svc _ prompt); by eauto.
Qed.

Lemma qa_chain_invoke_self (chain : QAChain) (question : string) (s : BotState) :
  b_self (qa_chain_invoke svc chain question s).2 = b_self s.
Proof.
  unfold qa_chain_invoke, retriever_invoke, bind, call_service, get_world, gets,
    lift_outcome, ret.
  simpl. destruct (embed_query svc _ question); [|done]. simpl.
  destruct (qa_prompt svc _ question _); done.
Qed.

(** What a successful run of the chain on [question] consists of: the
    retrieval is made for [question], the prompt is filled with the
    retrieved context, [question] and the rendered history, and the
    answer is what the generative service returns for that prompt. *)
Lemma qa_chain_invoke_success (chain : QAChain) (question answer : string)
    (s s' : BotState) :
  qa_chain_invoke svc chain question s = (Return answer, s') ->
  exists e prompt,
    let tr := trace (b_world s) in
    let context :=
      map to_document
        (take (search_k (chain_context chain))
           (rank svc e
              (index_contents (b_world s)
                 (persist_directory (retriever_store (chain_context chain)))))) in
    embed_query svc tr question = Return e
    /\ qa_prompt svc context question (_format_history_for_prompt (b_self s)) = Return prompt
    /\ llm svc (tr ++ [EvEmbedding [question]])%list prompt = Return answer
    /\ trace (b_world s') = (tr ++ [EvEmbedding [question]; EvGeneration prompt])%list
    /\ b_self s' = b_self s.
Proof.
  unfold qa_chain_invoke, retriever_invoke, bind, call_service, get_world, gets,
    lift_outcome, ret.
  simpl. destruct (embed_query svc _ question) as [e|] eqn:He; [|done]. simpl.
  destruct (qa_prompt svc _ question _) as [prompt|] eqn:Hp; [|done].
  destruct (llm svc _ prompt) as [a|] eqn:Hl; [|done].
  intros [= <- <-]. exists e, prompt. simpl.
  rewrite <- app_assoc. done.
Qed.

(** C2: without a retriever or without a chain, [ask] returns the fixed
    guidance sentence; it does not raise, and it leaves the chatbot and
    the world, its trace included, as they were: no call is made to the
    embedding service or to the generative service. *)
Theorem ask_without_documents (question : string) (streaming : bool) (s : BotState) :
  retriever (b_self s) = None \/ qa_chain (b_self s) = None ->
  ask svc question streaming s
  = (Return (Answer "Please load documents first using the load_documents method."), s).
Proof.
  intros H. unfold ask, bind, gets.
  destruct H as [-> | ->]; [done|].
  by destruct (retriever (b_self s)).
Qed.

(** C5: with an empty history the rewriter returns the question as it
    is and leaves the world, its trace included, as it was: no call is
    made to the generative service. With turns in the history, when the
    rewriting call raises, the rewriter returns the original question. In
    no case does the rewriter raise. *)
Theorem rewrite_question_fallback (question : string) (s : BotState) :
  (conversation_history (b_self s) = [] ->
   _rewrite_question svc question s = (Return question, s))
  /\ (forall e s1,
        conversation_history (b_self s) <> [] ->
        rewriter_chain_invoke svc (b_self s)
          (_convert_to_langchain_messages (b_self s)) question s = (Raise e, s1) ->
        _rewrite_question svc question s = (Return question, s1))
  /\ (exists rewritten s', _rewrite_question svc question s = (Return rewritten, s')).
Proof.
  split; [|split].
  - intros H. unfold _rewrite_question, bind, gets. by rewrite H.
  - intros e s1 Hne Hfail. unfold _rewrite_question, bind, gets.
    destruct (conversation_history (b_self s)); [done|].
    unfold try_except. by rewrite Hfail.
  - destruct (rewrite_question_returns question s) as (rw & s' & H & _). eauto.
Qed.

(** C10: a streaming [ask] in the ready state returns the handler and the
    generator over the rewritten question, and the conversation history is
    what it was; it is still so once the generator has been run to its end. *)
Theorem ask_streaming_keeps_history (question : string) (s : BotState)
    (r : Retriever) (chain : QAChain) :
  retriever (b_self s) = Some r ->
  qa_chain (b_self s) = Some chain ->
  exists rewritten s',
    _rewrite_question svc question s = (Return rewritten, s')
    /\ ask svc question true s
       = (Return (Stream {| text := "" |}
                         {| gen_chain := chain; gen_input := rewritten |}), s')
    /\ conversation_history (b_self s') = conversation_history (b_self s)
    /\ (forall generator,
          conversation_history (b_self (consume svc generator s').2)
          = conversation_history (b_self s)).
Proof.
  intros Hr Hc.
  destruct (rewrite_question_returns question s) as (rw & s' & Hrw & Hself).
  exists rw, s'. split; [done|]. split; [|split].
  - unfold ask, bind, gets. rewrite Hr, Hc.
    unfold try_except, bind. by rewrite Hrw.
  - by rewrite Hself.
  - intros g. unfold consume, bind.
    pose proof (qa_chain_invoke_self (gen_chain g) (gen_input g) s') as Hq.
    destruct (qa_chain_invoke svc _ _ s') as [[a|e] s2]; simpl in *; by rewrite Hq, Hself.
Qed.

(** C4: when the chain, run on the rewritten question, returns an answer,
    a non-streaming [ask] returns this answer and appends one pair to the
    history: the question as asked, and the answer. The retrieval was made
    for the rewritten question and the generation prompt was filled with
    it. *)
Theorem ask_appends_original_question (question : string) (s : BotState)
    (r : Retriever) (chain : QAChain) (rewritten answer : string) (s1 s2 : BotState) :
  retriever (b_self s) = Some r ->
  qa_chain (b_self s) = Some chain ->
  _rewrite_question svc question s = (Return rewritten, s1) ->
  qa_chain_invoke svc chain rewritten s1 = (Return answer, s2) ->
  exists s3 context prompt,
    ask svc question false s = (Return (Answer answer), s3)
    /\ conversation_history (b_self s3)
       = (conversation_history (b_self s) ++ [(question, answer)])%list
    /\ qa_prompt svc context rewritten (_format_history_for_prompt (b_self s))
       = Return prompt
    /\ trace (b_world s3)
       = (trace (b_world s1) ++ [EvEmbedding [rewritten]; EvGeneration prompt])%list.
Proof.
  intros Hr Hc Hrw Hqa.
  destruct (rewrite_question_returns question s) as (rw & s1' & Hrw' & Hself).
  rewrite Hrw in Hrw'. injection Hrw' as <- <-.
  destruct (qa_chain_invoke_success _ _ _ _ _ Hqa) as (e & prompt & H).
  cbv zeta in H. destruct H as (He & Hp & Hl & Htr & Hself2).
  eexists _, _, prompt. split; [|split; [|split]].
  - unfold ask, bind, gets. rewrite Hr, Hc.
    unfold try_except, bind. rewrite Hrw, Hqa. reflexivity.
  - simpl. by rewrite Hself2, Hself.
  - rewrite <- Hself. exact Hp.
  - simpl. exact Htr.
Qed.

(** C3, as the code has it: [ask] never raises. When the chain run by a
    non-streaming [ask] (retrieval, prompt assembly, generation) raises,
    [ask] returns "Error generating answer: " followed by the text of the
    exception, and the history is what it was. When it is the rewriting
    call that raises, [ask] goes on with the question as asked: it returns
    the answer of the chain and appends the turn, or the error text if the
    chain raises in its turn. *)
Theorem ask_chain_failure_is_answer (question : string) (s : BotState) :
  (forall streaming, exists result s', ask svc question streaming s = (Return result, s'))
  /\ (forall r chain rewritten s1 e s2,
        retriever (b_self s) = Some r ->
        qa_chain (b_self s) = Some chain ->
        _rewrite_question svc question s = (Return rewritten, s1) ->
        qa_chain_invoke svc chain rewritten s1 = (Raise e, s2) ->
        ask svc question false s
        = (Return (Answer ("Error generating answer: " +:+ str_exn e)), s2)
        /\ conversation_history (b_self s2) = conversation_history (b_self s))
  /\ (forall r chain e s1,
        retriever (b_self s) = Some r ->
        qa_chain (b_self s) = Some chain ->
        conversation_history (b_self s) <> [] ->
        rewriter_chain_invoke svc (b_self s)
          (_convert_to_langchain_messages (b_self s)) question s = (Raise e, s1) ->
        ask svc question false s
        = match qa_chain_invoke svc chain question s1 with
          | (Return answer, s2) =>
              (Return (Answer answer),
               {| b_self :=
                    set_conversation_history
                      (conversation_history (b_self s2) ++ [(question, answer)])%list
                      (b_self s2);
                  b_world := b_world s2 |})
          | (Raise e', s2) =>
              (Return (Answer ("Error generating answer: " +:+ str_exn e')), s2)
          end).
Proof.
  split; [|split].
  - intros streaming. unfold ask, bind, gets.
    destruct (retriever (b_self s)); [|by eauto].
    destruct (qa_chain (b_self s)) as [chain|]; [|by eauto].
    unfold try_except, bind.
    destruct (rewrite_question_returns question s) as (rw & s1 & -> & _).
    destruct streaming; [by eauto|].
    destruct (qa_chain_invoke svc chain rw s1) as [[a|e] s2]; by eauto.
  - intros r chain rw s1 e s2 Hr Hc Hrw Hqa.
    destruct (rewrite_question_returns question s) as (rw' & s1' & Hrw' & Hself).
    rewrite Hrw in Hrw'. injection Hrw' as <- <-.
    split.
    + unfold ask, bind, gets. rewrite Hr, Hc.
      unfold try_except, bind. by rewrite Hrw, Hqa.
    + pose proof (qa_chain_invoke_self chain rw s1) as Hq.
      rewrite Hqa in Hq. simpl in Hq. by rewrite Hq, Hself.
  - intros r chain e s1 Hr Hc Hne Hfail.
    assert (Hrw : _rewrite_question svc question s = (Return question, s1)).
    { unfold _rewrite_question, bind, gets.
      destruct (conversation_history (b_self s)); [done|].
      unfold try_except. by rewrite Hfail. }
    unfold ask, bind, gets. rewrite Hr, Hc.
    unfold try_except, bind. rewrite Hrw.
    by destruct (qa_chain_invoke svc chain question s1) as [[a|e'] s2].
Qed.

End Asking.

(** ** The registry *)

Section Registry.

Variable svc : Services.

Lemma under_refl (p : string) : under p p = true.
Proof. unfold under. by rewrite String.eqb_refl. Qed.

(** C7: [delete_document_base] on a registered name removes the storage
    directory, when there is one, before it touches the registry. When the
    removal raises, the exception goes on to the caller, the manager is
    what it was (the entry is still there) and the registry file is what
    it was: nothing is written. When the removal succeeds, or when there
    is no directory to remove, the entry is deleted and the registry is
    written, after the removal. *)
Theorem delete_removes_storage_first (name : string) (s : ManagerState) (info : BaseInfo) :
  metadata (m_self s) !! name = Some info ->
  let dir_path := Py.os_path_join (base_directory (m_self s)) (directory info) in
  let file := metadata_file (m_self s) in
  let w := m_world s in
  (forall e,
     dir_path ∈ directories w ->
     rmtree_error svc (trace w) dir_path = Some e ->
     exists s',
       delete_document_base svc name s = (Raise e, s')
       /\ m_self s' = m_self s
       /\ metadata_files (m_world s') = metadata_files w
       /\ trace (m_world s') = (trace w ++ [EvRmtree dir_path])%list)
  /\ (dir_path ∈ directories w ->
      rmtree_error svc (trace w) dir_path = None ->
      exists s',
        delete_document_base svc name s = (Return tt, s')
        /\ metadata (m_self s') = delete name (metadata (m_self s))
        /\ metadata_files (m_world s') !! file = Some (delete name (metadata (m_self s)))
        /\ (dir_path ∉ directories (m_world s'))
        /\ trace (m_world s') = (trace w ++ [EvRmtree dir_path; EvWriteMetadata file])%list)
  /\ (dir_path ∉ directories w ->
      exists s',
        delete_document_base svc name s = (Return tt, s')
        /\ metadata (m_self s') = delete name (metadata (m_self s))
        /\ metadata_files (m_world s') !! file = Some (delete name (metadata (m_self s)))
        /\ trace (m_world s') = (trace w ++ [EvWriteMetadata file])%list).
Proof.
  intros Hin dir_path file w. subst dir_path file w.
  destruct s as [self w]. simpl in *.
  unfold delete_document_base, bind, gets. simpl. rewrite Hin.
  unfold os_path_exists, bind, get_world, gets, ret. simpl.
  split; [|split].
  - intros e Hdir Hrm. rewrite bool_decide_eq_true_2 by done.
    unfold shutil_rmtree, bind, call_service. simpl. rewrite Hrm.
    eexists. split; [reflexivity|]. done.
  - intros Hdir Hrm. rewrite bool_decide_eq_true_2 by done.
    unfold shutil_rmtree, bind, call_service. simpl. rewrite Hrm. simpl.
    eexists. split; [reflexivity|]. simpl.
    split; [done|]. split; [by rewrite lookup_insert_eq|]. split.
    + rewrite elem_of_filter. intros [Hu _]. by rewrite under_refl in Hu.
    + by rewrite <- app_assoc.
  - intros Hdir. rewrite bool_decide_eq_false_2 by done. simpl.
    eexists. split; [reflexivity|]. simpl.
    split; [done|]. split; [by rewrite lookup_insert_eq | done].
Qed.

Lemma updated_info_files (now : string) (nd nc : Z) (docs : list string) (info : BaseInfo) :
  files_of (updated_info now nd nc docs info)
  = (files_of info ++ map Py.os_path_basename docs)%list.
Proof.
  unfold files_of, updated_info. simpl.
  destruct docs; simpl; [by rewrite app_nil_r | done].
Qed.

Lemma update_registered (name : string) (nd nc : Z) (docs : list string)
    (s : ManagerState) (info : BaseInfo) :
  metadata (m_self s) !! name = Some info ->
  exists s1 now,
    update_document_base svc name nd nc docs s = (Return tt, s1)
    /\ metadata (m_self s1)
       = <[name := updated_info now nd nc docs info]> (metadata (m_self s))
    /\ metadata_files (m_world s1) !! metadata_file (m_self s1) = Some (metadata (m_self s1)).
Proof.
  intros Hin. destruct s as [self w]. simpl in *.
  unfold update_document_base, bind, gets. simpl. rewrite Hin.
  unfold read_clock, call_service, bind. simpl.
  eexists _, _. split; [reflexivity|]. simpl.
  split; [done | by rewrite lookup_insert_eq].
Qed.

(** C8: on a registered name, [update_document_base] adds the given
    amounts to [num_documents] and [num_chunks] and appends the file names
    of the given paths to [documents]; it leaves the other bases, and the
    description, the directory and the creation time of this one, as they
    were. Done a second time with the same arguments it adds the same
    amounts again: the counters have grown by twice the amounts and the
    names are there twice, so that one call and two calls differ whenever
    an amount is not zero. On a name that is not registered it raises
    [KeyError] and changes nothing. *)
Theorem update_document_base_additive (name : string) (nd nc : Z) (docs : list string)
    (s : ManagerState) :
  (forall info,
     metadata (m_self s) !! name = Some info ->
     exists s1 s2 info1 info2,
       update_document_base svc name nd nc docs s = (Return tt, s1)
       /\ metadata (m_self s1) !! name = Some info1
       /\ num_documents info1 = (num_documents info + nd)%Z
       /\ num_chunks info1 = (num_chunks info + nc)%Z
       /\ files_of info1 = (files_of info ++ map Py.os_path_basename docs)%list
       /\ (description info1, directory info1, created_at info1)
          = (description info, directory info, created_at info)
       /\ (forall other, other <> name ->
             metadata (m_self s1) !! other = metadata (m_self s) !! other)
       /\ update_document_base svc name nd nc docs s1 = (Return tt, s2)
       /\ metadata (m_self s2) !! name = Some info2
       /\ num_documents info2 = (num_documents info + 2 * nd)%Z
       /\ num_chunks info2 = (num_chunks info + 2 * nc)%Z
       /\ files_of info2
          = (files_of info ++ map Py.os_path_basename docs
             ++ map Py.os_path_basename docs)%list
       /\ (nd <> 0%Z -> num_documents info2 <> num_documents info1)
       /\ (nc <> 0%Z -> num_chunks info2 <> num_chunks info1))
  /\ (metadata (m_self s) !! name = None ->
      update_document_base svc name nd nc docs s
      = (Raise (KeyError ("Document base '" +:+ name +:+ "' not found")), s)).
Proof.
  split.
  - intros info Hin.
    destruct (update_registered name nd nc docs s info Hin) as (s1 & now1 & H1 & Hm1 & _).
    assert (Hin1 : metadata (m_self s1) !! name = Some (updated_info now1 nd nc docs info))
      by (rewrite Hm1; apply lookup_insert_eq).
    destruct (update_registered name nd nc docs s1 _ Hin1) as (s2 & now2 & H2 & Hm2 & _).
    exists s1, s2, (updated_info now1 nd nc docs info),
      (updated_info now2 nd nc docs (updated_info now1 nd nc docs info)).
    split; [done|]. split; [done|]. split; [done|]. split; [done|].
    split; [apply updated_info_files|]. split; [done|].
    split; [by intros other Hne; rewrite Hm1, lookup_insert_ne|].
    split; [done|]. split; [rewrite Hm2; apply lookup_insert_eq|].
    split; [simpl; lia|]. split; [simpl; lia|].
    split; [by rewrite !updated_info_files, <- app_assoc|].
    split; simpl; lia.
  - intros Hout. unfold update_document_base, bind, gets. simpl. by rewrite Hout.
Qed.

End Registry.

(** ** Clearing and switching *)

Section ClearingAndSwitching.

Variable svc : Services.

(** C9: [clear_documents] empties the index of the active vector store
    and unsets the retriever and the chain, so that [ask] answers with the
    guidance sentence again; the manager, and with it the record of the
    active base (counters, document list, time stamps), is what it was,
    and so is the registry file. *)
Theorem clear_documents_keeps_registry (s : BotState) (name : string) (info : BaseInfo) :
  current_document_base (b_self s) = Some name ->
  metadata (document_base_manager (b_self s)) !! name = Some info ->
  exists s',
    clear_documents s = (Return tt, s')
    /\ index_contents (b_world s') (persist_directory (vector_store (b_self s))) = []
    /\ retriever (b_self s') = None
    /\ qa_chain (b_self s') = None
    /\ (forall question streaming,
          ask svc question streaming s' = (Return (Answer guidance), s'))
    /\ document_base_manager (b_self s') = document_base_manager (b_self s)
    /\ metadata (document_base_manager (b_self s')) !! name = Some info
    /\ metadata_files (b_world s') = metadata_files (b_world s)
    /\ current_document_base (b_self s') = Some name.
Proof.
  intros Hcur Hin. eexists. split; [reflexivity|]. simpl.
  split; [unfold index_contents; simpl; by rewrite lookup_insert_eq|].
  split; [done|]. split; [done|].
  split; [intros; reflexivity|].
  done.
Qed.

Lemma format_history_depends_on_history (self self' : RAGChatbot) :
  conversation_history self' = conversation_history self ->
  _format_history_for_prompt self' = _format_history_for_prompt self.
Proof. intros H. unfold _format_history_for_prompt. by rewrite H. Qed.

(** C1, as the code has it: switching to a registered base succeeds and
    makes it the current one, and the conversation history is what it was
    before: it is not emptied, and the history rendered into the next
    generation prompt is the rendering of the turns made before the
    switch. The same holds of [load_documents] called with the name of
    the base. *)
Theorem switch_keeps_history (name : string) (s : BotState) (info : BaseInfo) :
  metadata (document_base_manager (b_self s)) !! name = Some info ->
  exists s',
    _switch_document_base name s = (Return tt, s')
    /\ current_document_base (b_self s') = Some name
    /\ conversation_history (b_self s') = conversation_history (b_self s)
    /\ _format_history_for_prompt (b_self s') = _format_history_for_prompt (b_self s)
    /\ (forall file_paths directory_path,
          conversation_history
            (b_self (load_documents svc file_paths directory_path (Some name) s).2)
          = conversation_history (b_self s)).
Proof.
  intros Hin.
  assert (Hrun : exists s', _switch_document_base name s = (Return tt, s')
                            /\ current_document_base (b_self s') = Some name).
  { unfold _switch_document_base, on_manager, zoom, get_document_base_path, bind, gets.
    simpl. rewrite Hin. simpl. eexists. split; reflexivity. }
  destruct Hrun as (s' & Hrun & Hcur).
  pose proof (keeps_switch_document_base name s) as Hk. rewrite Hrun in Hk. simpl in Hk.
  exists s'. split; [done|]. split; [done|]. split; [done|].
  split; [by apply format_history_depends_on_history|].
  intros. apply keeps_load_documents.
Qed.

End ClearingAndSwitching.

(** ** The theorems at work on the concrete session *)

Section Witnesses.

Import Scenario.

Ltac by_evaluation :=
  repeat match goal with |- _ /\ _ => split end; vm_compute; reflexivity.

Lemma loaded_reachable (sv : Services) : reachable sv (loaded sv).
Proof.
  unfold loaded.
  eapply reach_load_documents; [|apply surjective_pairing].
  change (fresh sv) with {| b_self := b_self (fresh sv); b_world := b_world (fresh sv) |}.
  eapply (reach_init sv "./chroma_db" (Some "sk-test") None None
            (Some (m_self (registry sv))) (m_world (registry sv))).
  reflexivity.
Qed.

Lemma asked_reachable (sv : Services) : reachable sv (asked sv).
Proof.
  unfold asked.
  eapply reach_ask; [apply loaded_reachable | apply surjective_pairing].
Qed.

(** The rendering of seven turns, and of two turns the last of which
    ends with a space. *)
Example format_seven_turns :
  _format_history_for_prompt seven_turns
  = "..." +:+ Py.nl
    +:+ "Question 5: q5" +:+ Py.nl +:+ "Answer 5: a5" +:+ Py.nl +:+ Py.nl
    +:+ "Question 6: q6" +:+ Py.nl +:+ "Answer 6: a6" +:+ Py.nl +:+ Py.nl
    +:+ "Question 7: q7" +:+ Py.nl +:+ "Answer 7: a7".
Proof. vm_compute. reflexivity. Qed.

Example format_two_turns :
  _format_history_for_prompt two_turns
  = "Question 1: q1" +:+ Py.nl +:+ "Answer 1: a1" +:+ Py.nl +:+ Py.nl
    +:+ "Question 2: q2" +:+ Py.nl +:+ "Answer 2: a2".
Proof. vm_compute. reflexivity. Qed.

(** The claim that a switch empties the history fails on the session:
    the state after the first answer is reachable and is not on the base
    "papers", which is registered; switching to it, by name or through
    [load_documents], leaves the turn in the history, and the next
    question is answered from a prompt whose history part is the
    rendering of this turn. *)
Lemma switch_empties_history_counterexample :
  reachable svc (asked svc)
  /\ current_document_base (b_self (asked svc)) = None
  /\ metadata (document_base_manager (b_self (asked svc))) !! "papers" = Some papers_info
  /\ _switch_document_base "papers" (asked svc) = (Return tt, switched svc)
  /\ conversation_history (b_self (switched svc)) = [("Where is the Louvre?", "In Paris.")]
  /\ conversation_history (b_self (switched_by_load svc))
     = [("Where is the Louvre?", "In Paris.")]
  /\ last (trace (b_world (ask svc follow_up false (switched svc)).2))
     = Some (EvGeneration
               [SystemMessage ("Question 1: Where is the Louvre?" +:+ Py.nl
                               +:+ "Answer 1: In Paris.");
                HumanMessage "Where is the Eiffel Tower?"]).
Proof.
  split; [apply asked_reachable|].
  by_evaluation.
Qed.

Lemma switch_keeps_history_witness :
  exists s',
    _switch_document_base "papers" (asked svc) = (Return tt, s')
    /\ current_document_base (b_self s') = Some "papers"
    /\ conversation_history (b_self s') = conversation_history (b_self (asked svc))
    /\ _format_history_for_prompt (b_self s') = _format_history_for_prompt (b_self (asked svc))
    /\ (forall file_paths directory_path,
          conversation_history
            (b_self (load_documents svc file_paths directory_path (Some "papers")
                       (asked svc)).2)
          = conversation_history (b_self (asked svc))).
Proof.
  apply (switch_keeps_history svc "papers" (asked svc) papers_info).
  vm_compute. reflexivity.
Defined.

Lemma ask_without_documents_witness :
  ask svc "Where is the Louvre?" false (fresh svc)
  = (Return (Answer "Please load documents first using the load_documents method."),
     fresh svc).
Proof.
  apply (ask_without_documents svc "Where is the Louvre?" false (fresh svc)).
  left. vm_compute. reflexivity.
Defined.

(** The claim that a failure of the rewriting makes [ask] return an error
    text and leave the history alone fails on the session: in the ready
    state reached after the first answer, the rewriting call raises, and
    [ask] returns the answer generated for the question as asked, and
    appends the turn. And with a generative service that fails on every
    answer, a streaming [ask] returns its handler and generator, not an
    error text: the exception is raised to whoever runs the generator. *)
Lemma ask_failure_counterexample :
  reachable svc_rewriter_down (asked svc_rewriter_down)
  /\ retriever (b_self (asked svc_rewriter_down)) = Some the_retriever
  /\ qa_chain (b_self (asked svc_rewriter_down)) = Some the_chain
  /\ (rewriter_chain_invoke svc_rewriter_down (b_self (asked svc_rewriter_down))
        (_convert_to_langchain_messages (b_self (asked svc_rewriter_down)))
        follow_up (asked svc_rewriter_down)).1
     = Raise (OtherError "rate limit")
  /\ (ask svc_rewriter_down follow_up false (asked svc_rewriter_down)).1
     = Return (Answer "In Paris.")
  /\ conversation_history (b_self (asked svc_rewriter_down))
     = [("Where is the Louvre?", "In Paris.")]
  /\ conversation_history
       (b_self (ask svc_rewriter_down follow_up false (asked svc_rewriter_down)).2)
     = [("Where is the Louvre?", "In Paris."); ("And the Eiffel Tower?", "In Paris.")]
  /\ reachable svc_generation_down (loaded svc_generation_down)
  /\ (ask svc_generation_down "Where is the Louvre?" true (loaded svc_generation_down)).1
     = Return (Stream {| text := "" |}
                      {| gen_chain := the_chain; gen_input := "Where is the Louvre?" |})
  /\ (consume svc_generation_down
        {| gen_chain := the_chain; gen_input := "Where is the Louvre?" |}
        (ask svc_generation_down "Where is the Louvre?" true
           (loaded svc_generation_down)).2).1
     = Raise (OtherError "rate limit").
Proof.
  split; [apply asked_reachable|].
  do 6 (split; [vm_compute; reflexivity|]).
  split; [apply loaded_reachable|].
  by_evaluation.
Qed.

Lemma ask_chain_failure_is_answer_witness :
  ask svc_generation_down "Where is the Louvre?" false (loaded svc_generation_down)
  = (Return (Answer "Error generating answer: rate limit"),
     (qa_chain_invoke svc_generation_down the_chain "Where is the Louvre?"
        (loaded svc_generation_down)).2)
  /\ conversation_history
       (b_self (qa_chain_invoke svc_generation_down the_chain "Where is the Louvre?"
                  (loaded svc_generation_down)).2)
     = conversation_history (b_self (loaded svc_generation_down)).
Proof.
  destruct (ask_chain_failure_is_answer svc_generation_down "Where is the Louvre?"
              (loaded svc_generation_down)) as (_ & H & _).
  apply (H the_retriever the_chain "Where is the Louvre?" (loaded svc_generation_down)
           (OtherError "rate limit")); vm_compute; reflexivity.
Defined.

Lemma ask_appends_original_question_witness :
  exists s3 context prompt,
    ask svc follow_up false (asked svc) = (Return (Answer "In Paris."), s3)
    /\ conversation_history (b_self s3)
       = (conversation_history (b_self (asked svc)) ++ [(follow_up, "In Paris.")])%list
    /\ qa_prompt svc context "Where is the Eiffel Tower?"
         (_format_history_for_prompt (b_self (asked svc)))
       = Return prompt
    /\ trace (b_world s3)
       = (trace (b_world (_rewrite_question svc follow_up (asked svc)).2)
          ++ [EvEmbedding ["Where is the Eiffel Tower?"]; EvGeneration prompt])%list.
Proof.
  apply (ask_appends_original_question svc follow_up (asked svc) the_retriever the_chain
           "Where is the Eiffel Tower?" "In Paris."
           (_rewrite_question svc follow_up (asked svc)).2
           (qa_chain_invoke svc the_chain "Where is the Eiffel Tower?"
              (_rewrite_question svc follow_up (asked svc)).2).2);
    vm_compute; reflexivity.
Defined.

Lemma rewrite_question_fallback_witness :
  _rewrite_question svc "Where is the Louvre?" (loaded svc)
  = (Return "Where is the Louvre?", loaded svc)
  /\ _rewrite_question svc_rewriter_down follow_up (asked svc_rewriter_down)
     = (Return follow_up,
        (rewriter_chain_invoke svc_rewriter_down (b_self (asked svc_rewriter_down))
           (_convert_to_langchain_messages (b_self (asked svc_rewriter_down)))
           follow_up (asked svc_rewriter_down)).2).
Proof.
  split.
  - apply (rewrite_question_fallback svc "Where is the Louvre?" (loaded svc)).
    vm_compute. reflexivity.
  - destruct (rewrite_question_fallback svc_rewriter_down follow_up
                (asked svc_rewriter_down)) as (_ & H & _).
    apply (H (OtherError "rate limit")); [vm_compute; discriminate|].
    vm_compute. reflexivity.
Defined.

Lemma format_history_window_witness :
  (exists trailing,
     all_space trailing = true
     /\ _format_history_for_prompt two_turns +:+ trailing
        = render_turns 1 [("q1", "a1"); ("q2", "a2 ")]
     /\ Py.rstrip (_format_history_for_prompt two_turns) = _format_history_for_prompt two_turns)
  /\ (exists t1 t2 t3 trailing,
        drop 4 (conversation_history seven_turns) = [t1; t2; t3]
        /\ all_space trailing = true
        /\ _format_history_for_prompt seven_turns +:+ trailing
           = ("..." +:+ Py.nl)
             +:+ render_turn 5 t1 +:+ render_turn 6 t2 +:+ render_turn 7 t3
        /\ Py.rstrip (_format_history_for_prompt seven_turns)
           = _format_history_for_prompt seven_turns).
Proof.
  split.
  - destruct (format_history_window two_turns) as (_ & H & _).
    apply H. vm_compute. split; repeat constructor.
  - destruct (format_history_window seven_turns) as (_ & _ & H).
    apply H. vm_compute. repeat constructor.
Defined.

Lemma delete_removes_storage_first_witness :
  (exists s',
     delete_document_base svc_rmtree_fails "papers" (registry svc_rmtree_fails)
     = (Raise (OtherError "[Errno 13] Permission denied"), s')
     /\ m_self s' = m_self (registry svc_rmtree_fails)
     /\ metadata_files (m_world s') = metadata_files (m_world (registry svc_rmtree_fails))
     /\ trace (m_world s')
        = (trace (m_world (registry svc_rmtree_fails))
           ++ [EvRmtree "./document_bases/papers_1700000001"])%list)
  /\ (exists s',
        delete_document_base svc "papers" (registry svc) = (Return tt, s')
        /\ metadata (m_self s') = delete "papers" (metadata (m_self (registry svc)))
        /\ metadata_files (m_world s') !! "./document_bases/metadata.json"
           = Some (delete "papers" (metadata (m_self (registry svc))))
        /\ ("./document_bases/papers_1700000001" ∉ directories (m_world s'))
        /\ trace (m_world s')
           = (trace (m_world (registry svc))
              ++ [EvRmtree "./document_bases/papers_1700000001";
                  EvWriteMetadata "./document_bases/metadata.json"])%list).
Proof.
  split.
  - destruct (delete_removes_storage_first svc_rmtree_fails "papers"
                (registry svc_rmtree_fails) papers_info) as (H & _ & _);
      [vm_compute; reflexivity|].
    apply H; [|vm_compute; reflexivity].
    apply (bool_decide_unpack _). vm_compute. exact I.
  - destruct (delete_removes_storage_first svc "papers" (registry svc) papers_info)
      as (_ & H & _); [vm_compute; reflexivity|].
    apply H; [|vm_compute; reflexivity].
    apply (bool_decide_unpack _). vm_compute. exact I.
Defined.

Lemma update_document_base_additive_witness :
  (exists s1 s2 info1 info2,
     update_document_base svc "papers" 2 15 ["/tmp/ai_intro.pdf"; "ml_basics.docx"]
       (registry svc) = (Return tt, s1)
     /\ metadata (m_self s1) !! "papers" = Some info1
     /\ num_documents info1 = (0 + 2)%Z
     /\ num_chunks info1 = (0 + 15)%Z
     /\ files_of info1 = ([] ++ ["ai_intro.pdf"; "ml_basics.docx"])%list
     /\ (description info1, directory info1, created_at info1)
        = ("Reading list", "papers_1700000001", "2024-01-01T00:00:3")
     /\ (forall other, other <> "papers" ->
           metadata (m_self s1) !! other = metadata (m_self (registry svc)) !! other)
     /\ update_document_base svc "papers" 2 15 ["/tmp/ai_intro.pdf"; "ml_basics.docx"] s1
        = (Return tt, s2)
     /\ metadata (m_self s2) !! "papers" = Some info2
     /\ num_documents info2 = (0 + 2 * 2)%Z
     /\ num_chunks info2 = (0 + 2 * 15)%Z
     /\ files_of info2
        = ([] ++ ["ai_intro.pdf"; "ml_basics.docx"]
           ++ ["ai_intro.pdf"; "ml_basics.docx"])%list
     /\ (2 <> 0 -> num_documents info2 <> num_documents info1)%Z
     /\ (15 <> 0 -> num_chunks info2 <> num_chunks info1)%Z)
  /\ update_document_base svc "drafts" 2 15 [] (registry svc)
     = (Raise (KeyError "Document base 'drafts' not found"), registry svc).
Proof.
  split.
  - destruct (update_document_base_additive svc "papers" 2 15
                ["/tmp/ai_intro.pdf"; "ml_basics.docx"] (registry svc)) as [H _].
    apply (H papers_info). vm_compute. reflexivity.
  - destruct (update_document_base_additive svc "drafts" 2 15 [] (registry svc))
      as [_ H].
    apply H. vm_compute. reflexivity.
Defined.

Lemma clear_documents_keeps_registry_witness :
  exists s',
    clear_documents (switched svc) = (Return tt, s')
    /\ index_contents (b_world s') (persist_directory (vector_store (b_self (switched svc))))
       = []
    /\ retriever (b_self s') = None
    /\ qa_chain (b_self s') = None
    /\ (forall question streaming,
          ask svc question streaming s' = (Return (Answer guidance), s'))
    /\ document_base_manager (b_self s') = document_base_manager (b_self (switched svc))
    /\ metadata (document_base_manager (b_self s')) !! "papers" = Some papers_info
    /\ metadata_files (b_world s') = metadata_files (b_world (switched svc))
    /\ current_document_base (b_self s') = Some "papers".
Proof.
  apply (clear_documents_keeps_registry svc (switched svc) "papers" papers_info);
    vm_compute; reflexivity.
Defined.

Lemma ask_streaming_keeps_history_witness :
  exists rewritten s',
    _rewrite_question svc follow_up (asked svc) = (Return rewritten, s')
    /\ ask svc follow_up true (asked svc)
       = (Return (Stream {| text := "" |}
                         {| gen_chain := the_chain; gen_input := rewritten |}), s')
    /\ conversation_history (b_self s') = conversation_history (b_self (asked svc))
    /\ (forall generator,
          conversation_history (b_self (consume svc generator s').2)
          = conversation_history (b_self (asked svc))).
Proof.
  apply (ask_streaming_keeps_history svc follow_up (asked svc) the_retriever the_chain);
    vm_compute; reflexivity.
Defined.

End Witnesses.

(** ** Paths and names *)

Section PathFacts.

Lemma has_sep_app (a b : string) : Py.has_sep (a +:+ b) = Py.has_sep a || Py.has_sep b.
Proof.
  induction a as [|c a IH]; [done|].
  rewrite str_app_cons. simpl. rewrite IH. by rewrite orb_assoc.
Qed.

Lemma basename_without_sep (p : string) : Py.has_sep p = false -> Py.os_path_basename p = p.
Proof. destruct p as [|c p]; [done|]. intros H. simpl in *. by rewrite H. Qed.

Lemma basename_has_no_sep (p : string) : Py.has_sep (Py.os_path_basename p) = false.
Proof.
  induction p as [|c p IH]; [done|].
  change (Py.os_path_basename (String c p))
    with (if Py.has_sep (String c p) then Py.os_path_basename p else String c p).
  by destruct (Py.has_sep (String c p)) eqn:E.
Qed.

Lemma basename_after_sep (a d : string) :
  Py.has_sep d = false -> Py.os_path_basename (a +:+ String Py.sep d) = d.
Proof.
  intros Hd. induction a as [|c a IH].
  - rewrite str_app_nil.
    change (Py.os_path_basename (String Py.sep d))
      with (if Py.has_sep (String Py.sep d) then Py.os_path_basename d else String Py.sep d).
    simpl. by apply basename_without_sep.
  - rewrite str_app_cons.
    change (Py.os_path_basename (String c (a +:+ String Py.sep d)))
      with (if Py.has_sep (String c (a +:+ String Py.sep d))
            then Py.os_path_basename (a +:+ String Py.sep d)
            else String c (a +:+ String Py.sep d)).
    replace (Py.has_sep (String c (a +:+ String Py.sep d))) with true; [done|].
    simpl. rewrite has_sep_app. simpl. by rewrite !orb_true_r.
Qed.

Lemma endswith_sep_split (a : string) :
  Py.endswith_sep a = true -> exists a', a = a' +:+ String Py.sep "".
Proof.
  induction a as [|c a IH]; [done|]. simpl.
  destruct a as [|d a].
  - intros H. apply Ascii.eqb_eq in H. subst. by exists "".
  - intros H. destruct (IH H) as [a' ->]. by exists (String c a').
Qed.

Lemma prefix_sep_needs_sep (d : string) : Py.has_sep d = false -> String.prefix "/" d = false.
Proof.
  destruct d as [|c d]; [done|]. intros H.
  assert (Hne : c <> Py.sep).
  { intros ->. simpl in H. discriminate H. }
  change (String.prefix "/" (String c d))
    with (if ascii_dec "/" c then String.prefix "" d else false).
  destruct (ascii_dec "/" c) as [<-|]; [by destruct Hne | done].
Qed.

(** A name without separator, joined to a directory, is the last
    component of the path. *)
Lemma basename_join (base d : string) :
  Py.has_sep d = false -> Py.os_path_basename (Py.os_path_join base d) = d.
Proof.
  intros Hd. unfold Py.os_path_join. rewrite prefix_sep_needs_sep by done.
  destruct base as [|c base].
  - rewrite str_app_nil. by apply basename_without_sep.
  - change (negb (Py.truthy (String c base))) with false. rewrite orb_false_l.
    destruct (Py.endswith_sep (String c base)) eqn:E.
    + destruct (endswith_sep_split _ E) as [a' Ha]. rewrite Ha.
      rewrite str_app_assoc. by apply basename_after_sep.
    + by apply (basename_after_sep (String c base)).
Qed.

Lemma join_inj (base d d' : string) :
  Py.has_sep d = false -> Py.has_sep d' = false ->
  Py.os_path_join base d = Py.os_path_join base d' -> d = d'.
Proof.
  intros Hd Hd' H.
  by rewrite <- (basename_join base d), <- (basename_join base d'), H.
Qed.

Lemma sanitize_has_no_sep (name : string) : Py.has_sep (Py.sanitize name) = false.
Proof.
  induction name as [|c name IH]; [done|]. simpl. rewrite IH, orb_false_r.
  destruct (Py.isalnum c) eqn:E; [|done].
  destruct (Ascii.eqb_spec c Py.sep) as [->|]; [by vm_compute in E | done].
Qed.

Lemma uint_has_no_sep (d : Decimal.uint) : Py.has_sep (NilEmpty.string_of_uint d) = false.
Proof. induction d; simpl; try done. Qed.

Lemma str_int_has_no_sep (z : Z) : Py.has_sep (Py.str_int z) = false.
Proof.
  unfold Py.str_int, NilZero.string_of_int, NilZero.string_of_uint.
  destruct (Z.to_int z) as [d|d]; destruct d; simpl; try done; apply uint_has_no_sep.
Qed.

Lemma str_int_inj (a b : Z) : Py.str_int a = Py.str_int b -> a = b.
Proof.
  intros H. apply DecimalZ.to_int_inj.
  assert (Hnn : forall z, Z.to_int z <> Decimal.Pos Decimal.Nil
                          /\ Z.to_int z <> Decimal.Neg Decimal.Nil).
  { intros [|p|p]; simpl; (split; [|]); try discriminate;
      intros [= E]; by apply (DecimalPos.Unsigned.to_uint_nonnil p). }
  pose proof (NilZero.isi (Z.to_int a) (proj1 (Hnn a)) (proj2 (Hnn a))) as Ha.
  pose proof (NilZero.isi (Z.to_int b) (proj1 (Hnn b)) (proj2 (Hnn b))) as Hb.
  unfold Py.str_int in H. rewrite H in Ha. congruence.
Qed.

(** The directory name given to a new base. *)
Lemma directory_name_has_no_sep (name : string) (timestamp : Z) :
  Py.has_sep (Py.sanitize name +:+ "_" +:+ Py.str_int timestamp) = false.
Proof.
  rewrite !has_sep_app, sanitize_has_no_sep, str_int_has_no_sep. done.
Qed.

End PathFacts.

(** ** The registry, operation by operation *)

Section RegistryOperations.

Variable svc : Services.

Ltac run_manager :=
  unfold run_op, create_document_base, update_document_base, delete_document_base,
    rename_document_base, get_document_base, get_document_base_path, _save_metadata,
    os_makedirs, os_path_exists, shutil_rmtree, read_clock, call_service, modify_manager,
    modify_world, log_event, get_world, modify, gets, bind, ret, raise;
  simpl.

(** An operation either raises, and then the manager, the registry file,
    the directories and the indexes are what they were, or returns, and
    then the registry map has made the step of the operation and the
    registry file holds the new map. *)
Lemma run_op_cases (op : RegistryOp) (s : ManagerState) :
  (exists e s',
     run_op svc op s = (Raise e, s')
     /\ m_self s' = m_self s
     /\ metadata_files (m_world s') = metadata_files (m_world s)
     /\ directories (m_world s') = directories (m_world s)
     /\ indexes (m_world s') = indexes (m_world s))
  \/ (exists s' m',
        run_op svc op s = (Return tt, s')
        /\ m_self s' = set_metadata m' (m_self s)
        /\ metadata_files (m_world s') !! metadata_file (m_self s) = Some m'
        /\ registry_step op (metadata (m_self s)) m').
Proof.
  destruct s as [self w]. destruct op as [name d|name nd nc docs|name|old new].
  - run_manager. destruct (metadata self !! name) eqn:E; simpl.
    + left. eexists _, _. by split.
    + right. eexists _, _. split; [reflexivity|]. simpl.
      split; [done|]. split; [by rewrite lookup_insert_eq|].
      split; [done|]. by eexists _, _, _.
  - run_manager. destruct (metadata self !! name) eqn:E; simpl.
    + right. eexists _, _. split; [reflexivity|]. simpl.
      split; [done|]. split; [by rewrite lookup_insert_eq|]. by eexists _, _.
    + left. eexists _, _. by split.
  - run_manager. destruct (metadata self !! name) as [info|] eqn:E; simpl.
    + destruct (bool_decide _); simpl.
      * destruct (rmtree_error svc (trace w) _) eqn:R; simpl.
        -- left. eexists _, _. by split.
        -- right. eexists _, _. split; [reflexivity|]. simpl.
           split; [done|]. split; [by rewrite lookup_insert_eq|]. by split.
      * right. eexists _, _. split; [reflexivity|]. simpl.
        split; [done|]. split; [by rewrite lookup_insert_eq|]. by split.
    + left. eexists _, _. by split.
  - run_manager. destruct (metadata self !! old) as [info|] eqn:E; simpl.
    + destruct (metadata self !! new) eqn:E'; simpl.
      * left. eexists _, _. by split.
      * right. eexists _, _. split; [reflexivity|]. simpl.
        split; [done|]. split; [by rewrite lookup_insert_eq|]. by eexists _, _.
    + left. eexists _, _. by split.
Qed.


(** X2: after an operation that returns, the registry file holds the
    map the manager has in memory, so that a manager built anew over the
    same directory is the same manager. *)
Theorem registry_reload_round_trip (op : RegistryOp) (s s' : ManagerState) :
  standard_manager (m_self s) ->
  run_op svc op s = (Return tt, s') ->
  standard_manager (m_self s')
  /\ metadata_files (m_world s') !! metadata_file (m_self s') = Some (metadata (m_self s'))
  /\ m_self (DocumentBaseManager_init (base_directory (m_self s')) (m_world s'))
     = m_self s'.
Proof.
  intros Hstd H.
  destruct (run_op_cases op s) as [(e0 & s0 & H0 & _)|(s0 & m' & H0 & Hself & Hfile & _)];
    rewrite H0 in H; [discriminate|].
  injection H as <-. unfold standard_manager in *. rewrite Hself. simpl.
  split; [done|]. split; [done|].
  unfold DocumentBaseManager_init, _load_metadata. simpl.
  rewrite <- Hstd, Hfile. unfold set_metadata. by rewrite Hstd.
Qed.

(** X3: an operation leaves the records of the names it is not about as
    they were, whether it returns or raises. *)
Theorem registry_op_frame (op : RegistryOp) (s : ManagerState) (other : string) :
  other ∉ op_names op ->
  metadata (m_self (run_op svc op s).2) !! other = metadata (m_self s) !! other.
Proof.
  intros Hother.
  destruct (run_op_cases op s) as [(e0 & s0 & H0 & Hs & _)|(s0 & m' & H0 & Hs & _ & Hstep)];
    rewrite H0; simpl; rewrite Hs; [done|]. simpl.
  destruct op as [name d|name nd nc docs|name|old new]; simpl in *.
  - destruct Hstep as (_ & c & u & dn & ->). apply lookup_insert_ne. set_solver.
  - destruct Hstep as (info & now & _ & ->). apply lookup_insert_ne. set_solver.
  - destruct Hstep as (_ & ->). apply lookup_delete_ne. set_solver.
  - destruct Hstep as (info & now & _ & _ & ->).
    rewrite lookup_delete_ne, lookup_insert_ne; [done| |]; set_solver.
Qed.

Lemma names_only_insert (m : gmap string BaseInfo) (name : string) (info : BaseInfo) :
  names_only m ->
  Forall (fun f => Py.has_sep f = false) (files_of info) ->
  names_only (<[name := info]> m).
Proof.
  intros Hm Hinfo n i. rewrite lookup_insert. case_decide.
  - by intros [= <-].
  - apply Hm.
Qed.

Lemma names_only_delete (m : gmap string BaseInfo) (name : string) :
  names_only m -> names_only (delete name m).
Proof.
  intros Hm n i. rewrite lookup_delete. case_decide; [done | apply Hm].
Qed.

(** X4: no operation puts a path into a list of documents: if every
    recorded document is a file name, it is still so after the operation. *)
Theorem registry_keeps_names_only (op : RegistryOp) (s : ManagerState) :
  names_only (metadata (m_self s)) ->
  names_only (metadata (m_self (run_op svc op s).2)).
Proof.
  intros Hm.
  destruct (run_op_cases op s) as [(e0 & s0 & H0 & Hs & _)|(s0 & m' & H0 & Hs & _ & Hstep)];
    rewrite H0; simpl; rewrite Hs; [done|]. simpl.
  destruct op as [name d|name nd nc docs|name|old new]; simpl in *.
  - destruct Hstep as (_ & c & u & dn & ->). apply names_only_insert; [done|].
    constructor.
  - destruct Hstep as (info & now & Hin & ->). apply names_only_insert; [done|].
    rewrite updated_info_files. apply Forall_app. split; [by apply (Hm name)|].
    apply Forall_forall. intros f Hf. apply list_elem_of_fmap in Hf as (p & -> & _).
    apply basename_has_no_sep.
  - destruct Hstep as (_ & ->). by apply names_only_delete.
  - destruct Hstep as (info & now & Hin & _ & ->).
    apply names_only_delete, names_only_insert; [done|]. exact (Hm old info Hin).
Qed.

Lemma create_fresh (name descr : string) (s : ManagerState) :
  metadata (m_self s) !! name = None ->
  exists s' created updated,
    let dir_name :=
      Py.sanitize name +:+ "_" +:+ Py.str_int (time_time svc (trace (m_world s))) in
    let path := Py.os_path_join (base_directory (m_self s)) dir_name in
    create_document_base svc name descr s = (Return path, s')
    /\ m_self s'
       = set_metadata
           (<[name := {| created_at := created;
                         updated_at := updated;
                         description := descr;
                         directory := dir_name;
                         num_documents := 0;
                         num_chunks := 0;
                         documents := Some [] |}]> (metadata (m_self s)))
           (m_self s)
    /\ directories (m_world s') = {[path]} ∪ directories (m_world s)
    /\ indexes (m_world s') = indexes (m_world s).
Proof.
  intros Hfresh. destruct s as [self w]. simpl in *.
  run_manager. rewrite Hfresh. simpl.
  eexists _, _, _. split; [reflexivity|]. done.
Qed.

Lemma create_returns (name descr : string) (s s' : ManagerState) (path : string) :
  create_document_base svc name descr s = (Return path, s') ->
  metadata (m_self s) !! name = None
  /\ path = Py.os_path_join (base_directory (m_self s))
              (Py.sanitize name +:+ "_"
               +:+ Py.str_int (time_time svc (trace (m_world s)))).
Proof.
  intros H. destruct (metadata (m_self s) !! name) eqn:E.
  - revert H. run_manager. by rewrite E.
  - destruct (create_fresh name descr s E) as (s0 & c & u & H0 & _).
    cbv zeta in H0. rewrite H0 in H. by injection H as <- _.
Qed.

Lemma lookup_registered (name : string) (s : ManagerState) (info : BaseInfo) :
  metadata (m_self s) !! name = Some info ->
  get_document_base name s = (Return info, s)
  /\ get_document_base_path name s
     = (Return (Py.os_path_join (base_directory (m_self s)) (directory info)), s).
Proof. intros H. run_manager. by rewrite H. Qed.

Lemma lookup_missing (name : string) (s : ManagerState) :
  metadata (m_self s) !! name = None ->
  get_document_base name s = (Raise (not_found name), s)
  /\ get_document_base_path name s = (Raise (not_found name), s)
  /\ (forall nd nc docs,
        update_document_base svc name nd nc docs s = (Raise (not_found name), s))
  /\ delete_document_base svc name s = (Raise (not_found name), s)
  /\ (forall new_name,
        rename_document_base svc name new_name s = (Raise (not_found name), s)).
Proof. intros H. run_manager. by rewrite H. Qed.


(** X6: renaming a registered base to a free name moves its record,
    unchanged but for its update time, under the new name; the old name is
    gone, the number of bases is the same, and the storage is not moved:
    the new name has the path the old one had. *)
Theorem rename_moves_record (old_name new_name : string) (s : ManagerState)
    (info : BaseInfo) :
  metadata (m_self s) !! old_name = Some info ->
  metadata (m_self s) !! new_name = None ->
  exists s' info',
    rename_document_base svc old_name new_name s = (Return tt, s')
    /\ metadata (m_self s') !! old_name = None
    /\ metadata (m_self s') !! new_name = Some info'
    /\ (created_at info', description info', directory info',
        num_documents info', num_chunks info', documents info')
       = (created_at info, description info, directory info,
          num_documents info, num_chunks info, documents info)
    /\ get_document_base_path new_name s'
       = (Return (Py.os_path_join (base_directory (m_self s)) (directory info)), s')
    /\ directories (m_world s') = directories (m_world s)
    /\ size (metadata (m_self s')) = size (metadata (m_self s)).
Proof.
  intros Hold Hnew.
  assert (Hne : old_name <> new_name) by congruence.
  destruct s as [self w]. simpl in *.
  run_manager. rewrite Hold, Hnew. simpl.
  eexists _, _. split; [reflexivity|]. simpl.
  split; [apply lookup_delete_eq|].
  split; [by rewrite lookup_delete_ne, lookup_insert_eq|].
  split; [done|].
  split; [by rewrite lookup_delete_ne, lookup_insert_eq|].
  split; [done|].
  rewrite map_size_delete_Some by (rewrite lookup_insert_ne by done; eauto).
  by rewrite map_size_insert_None.
Qed.

(** X7: renaming is refused, and changes nothing, when the old name is
    not registered ([KeyError]) and when the new name is taken
    ([ValueError]); renaming a base to its own name is refused in this
    way. *)
Theorem rename_refused (old_name new_name : string) (s : ManagerState) :
  (metadata (m_self s) !! old_name = None ->
   rename_document_base svc old_name new_name s = (Raise (not_found old_name), s))
  /\ (is_Some (metadata (m_self s) !! old_name) ->
      is_Some (metadata (m_self s) !! new_name) ->
      rename_document_base svc old_name new_name s
      = (Raise (already_exists new_name), s))
  /\ (is_Some (metadata (m_self s) !! old_name) ->
      rename_document_base svc old_name old_name s
      = (Raise (already_exists old_name), s)).
Proof.
  split; [|split].
  - intros H. run_manager. by rewrite H.
  - intros [i Hi] [j Hj]. run_manager. by rewrite Hi, Hj.
  - intros [i Hi]. run_manager. by rewrite Hi.
Qed.

Lemma delete_returns (name : string) (s s' : ManagerState) :
  delete_document_base svc name s = (Return tt, s') ->
  exists info,
    metadata (m_self s) !! name = Some info
    /\ m_self s' = set_metadata (delete name (metadata (m_self s))) (m_self s)
    /\ (Py.os_path_join (base_directory (m_self s)) (directory info)
        ∉ directories (m_world s')).
Proof.
  destruct s as [self w]. run_manager.
  destruct (metadata self !! name) as [info|] eqn:E; simpl; [|done].
  destruct (bool_decide _) eqn:B; simpl.
  - destruct (rmtree_error svc (trace w) _); simpl; [done|].
    intros [= <-]. exists info. simpl. split; [done|]. split; [done|].
    rewrite elem_of_filter. intros [Hu _]. by rewrite under_refl in Hu.
  - intros [= <-]. exists info. simpl. split; [done|]. split; [done|].
    by apply bool_decide_eq_false_1 in B.
Qed.

(** X8: once a base is deleted, looking it up, updating it and deleting
    it again raise [KeyError] and change nothing; its directory is not
    there any more, and the registry has one base less. *)
Theorem delete_then_lookup (name : string) (s s' : ManagerState) :
  delete_document_base svc name s = (Return tt, s') ->
  get_document_base name s' = (Raise (not_found name), s')
  /\ get_document_base_path name s' = (Raise (not_found name), s')
  /\ (forall nd nc docs,
        update_document_base svc name nd nc docs s' = (Raise (not_found name), s'))
  /\ delete_document_base svc name s' = (Raise (not_found name), s')
  /\ (exists info,
        metadata (m_self s) !! name = Some info
        /\ (Py.os_path_join (base_directory (m_self s)) (directory info)
            ∉ directories (m_world s')))
  /\ S (size (metadata (m_self s'))) = size (metadata (m_self s)).
Proof.
  intros H. destruct (delete_returns name s s' H) as (info & Hin & Hself & Hdir).
  assert (Hgone : metadata (m_self s') !! name = None)
    by (rewrite Hself; simpl; apply lookup_delete_eq).
  destruct (lookup_missing name s' Hgone) as (H1 & H2 & H3 & H4 & _).
  split; [done|]. split; [done|]. split; [done|]. split; [done|].
  split; [by exists info|].
  rewrite Hself. simpl. rewrite map_size_delete_Some by eauto.
  assert (size (metadata (m_self s)) <> 0); [|lia].
  intros Hz. apply map_size_empty_inv in Hz. by rewrite Hz in Hin.
Qed.

(** X9: two different names that are sanitized to the same text, created
    while the clock shows the same second, are given the same directory:
    both are registered with one path, and deleting the first removes the
    directory the second still points to. *)
Theorem same_second_collision (n1 n2 d1 d2 : string) (s s1 : ManagerState) (p1 : string) :
  n1 <> n2 ->
  Py.sanitize n1 = Py.sanitize n2 ->
  metadata (m_self s) !! n2 = None ->
  create_document_base svc n1 d1 s = (Return p1, s1) ->
  time_time svc (trace (m_world s1)) = time_time svc (trace (m_world s)) ->
  exists s2,
    create_document_base svc n2 d2 s1 = (Return p1, s2)
    /\ get_document_base_path n1 s2 = (Return p1, s2)
    /\ get_document_base_path n2 s2 = (Return p1, s2)
    /\ (forall s3,
          delete_document_base svc n1 s2 = (Return tt, s3) ->
          get_document_base_path n2 s3 = (Return p1, s3)
          /\ (p1 ∉ directories (m_world s3))).
Proof.
  intros Hne Hsan Hfresh2 Hc1 Hclock.
  destruct (create_returns _ _ _ _ _ Hc1) as [Hfresh1 Hp1].
  destruct (create_fresh n1 d1 s Hfresh1) as (s1' & c & u & H).
  cbv zeta in H. destruct H as (Hrun & Hself1 & _).
  rewrite Hrun in Hc1. injection Hc1 as _ ->.
  assert (Hfresh2' : metadata (m_self s1) !! n2 = None)
    by (rewrite Hself1; simpl; by rewrite lookup_insert_ne).
  destruct (create_fresh n2 d2 s1 Hfresh2') as (s2 & c2 & u2 & H).
  cbv zeta in H. destruct H as (Hrun2 & Hself2 & _).
  assert (Hbase : base_directory (m_self s1) = base_directory (m_self s))
    by (by rewrite Hself1).
  rewrite Hclock, <- Hsan, Hbase, <- Hp1 in Hrun2.
  exists s2. split; [exact Hrun2|].
  assert (Hin1 : exists i, metadata (m_self s2) !! n1 = Some i
                           /\ Py.os_path_join (base_directory (m_self s2)) (directory i) = p1).
  { rewrite Hself2, Hself1. simpl. rewrite lookup_insert_ne by done.
    rewrite lookup_insert_eq. eexists. split; [reflexivity|]. by rewrite Hp1. }
  assert (Hin2 : exists i, metadata (m_self s2) !! n2 = Some i
                           /\ Py.os_path_join (base_directory (m_self s2)) (directory i) = p1).
  { rewrite Hself2, Hself1. simpl. rewrite lookup_insert_eq.
    eexists. split; [reflexivity|]. simpl. by rewrite Hclock, <- Hsan, Hp1. }
  destruct Hin1 as (i1 & Hi1 & Hpath1). destruct Hin2 as (i2 & Hi2 & Hpath2).
  split; [by rewrite (proj2 (lookup_registered n1 s2 i1 Hi1)), Hpath1|].
  split; [by rewrite (proj2 (lookup_registered n2 s2 i2 Hi2)), Hpath2|].
  intros s3 Hdel.
  destruct (delete_returns n1 s2 s3 Hdel) as (i & Hi & Hself3 & Hgone).
  rewrite Hi1 in Hi. injection Hi as <-. rewrite Hpath1 in Hgone.
  split; [|done].
  assert (Hi2' : metadata (m_self s3) !! n2 = Some i2)
    by (rewrite Hself3; simpl; by rewrite lookup_delete_ne).
  rewrite (proj2 (lookup_registered n2 s3 i2 Hi2')).
  by rewrite Hself3, <- Hpath2.
Qed.

(** X10: the same name created at two different clock values, in the
    same base directory, is given two different directories. *)
Theorem recreated_base_gets_new_directory (name d d' : string)
    (s s' t t' : ManagerState) (p p' : string) :
  create_document_base svc name d s = (Return p, s') ->
  create_document_base svc name d' t = (Return p', t') ->
  base_directory (m_self t) = base_directory (m_self s) ->
  time_time svc (trace (m_world t)) <> time_time svc (trace (m_world s)) ->
  p' <> p.
Proof.
  intros Hs Ht Hbase Hclock Heq.
  destruct (create_returns _ _ _ _ _ Hs) as [_ ->].
  destruct (create_returns _ _ _ _ _ Ht) as [_ ->].
  rewrite Hbase in Heq.
  apply join_inj in Heq; [|apply directory_name_has_no_sep..].
  apply (inj (String.app _)) in Heq. apply (inj (String.app _)) in Heq.
  by apply str_int_inj in Heq.
Qed.

(** X11: [list_document_bases] has one summary for every registered
    base, carrying its name, description, times and counters, and nothing
    else: every summary is that of a registered base, no name comes
    twice, and there are as many summaries as bases. Nothing is said of
    their order. *)
Theorem list_document_bases_complete (self : DocumentBaseManager) :
  (forall name info,
     metadata self !! name = Some info ->
     summary_of name info ∈ list_document_bases self)
  /\ (forall sm, sm ∈ list_document_bases self ->
        exists info, metadata self !! summary_name sm = Some info
                     /\ sm = summary_of (summary_name sm) info)
  /\ NoDup (summary_name <$> list_document_bases self)
  /\ length (list_document_bases self) = size (metadata self).
Proof.
  unfold list_document_bases. split; [|split; [|split]].
  - intros name info H. rewrite list_elem_of_fmap.
    exists (name, info). split; [done|]. by apply elem_of_map_to_list.
  - intros sm Hin. apply list_elem_of_fmap in Hin as ([n i] & -> & Hin).
    apply elem_of_map_to_list in Hin. by exists i.
  - rewrite <- list_fmap_compose.
    replace (summary_name ∘ (fun kv => summary_of kv.1 kv.2)) with (@fst string BaseInfo).
    + apply NoDup_fst_map_to_list.
    + done.
  - by rewrite length_fmap, length_map_to_list.
Qed.

End RegistryOperations.

(** ** What asking touches *)

Section AskingFrame.

Variable svc : Services.

(** The rewriter leaves everything but the trace, to which it adds at
    most one call. *)
Lemma rewrite_question_frame (question : string) (s : BotState) :
  exists rewritten calls,
    _rewrite_question svc question s
    = (Return rewritten,
       {| b_self := b_self s;
          b_world := set_trace (trace (b_world s) ++ calls) (b_world s) |})
    /\ length calls <= 1
    /\ forallb service_call calls = true
    /\ (conversation_history (b_self s) = [] -> rewritten = question /\ calls = []).
Proof.
  destruct s as [self [dirs files idx tr]].
  unfold _rewrite_question, bind, gets. simpl.
  assert (Hnone : forall q : string,
            exists calls,
              (Return q, {| b_self := self;
                            b_world := {| directories := dirs; metadata_files := files;
                                          indexes := idx; trace := tr |} |})
              = (Return q,
                 {| b_self := self;
                    b_world := set_trace (tr ++ calls)
                                 {| directories := dirs; metadata_files := files;
                                    indexes := idx; trace := tr |} |})
              /\ length calls <= 1 /\ forallb service_call calls = true /\ calls = []).
  { intros q. exists []. rewrite app_nil_r. split; [done|]. split; [simpl; lia | done]. }
  destruct (conversation_history self) as [|turn rest].
  { destruct (Hnone question) as (calls & H1 & H2 & H3 & H4).
    exists question, calls. done. }
  unfold try_except, rewriter_chain_invoke.
  destruct (rewriter_chain self).
  2:{ destruct (Hnone question) as (calls & H1 & H2 & H3 & H4).
      exists question, calls. done. }
  unfold bind, lift_outcome, call_service. simpl.
  destruct (query_rewriter_prompt svc _ question) as [prompt|e].
  2:{ destruct (Hnone question) as (calls & H1 & H2 & H3 & H4).
      exists question, calls. done. }
  destruct (llm svc _ prompt) as [a|e].
  - exists a, [EvGeneration prompt]. split; [done|]. split; [simpl; lia | done].
  - exists question, [EvGeneration prompt]. split; [done|]. split; [simpl; lia | done].
Qed.

(** The chain leaves everything but the trace, to which it adds at most
    two calls. *)
Lemma qa_chain_invoke_frame (chain : QAChain) (question : string) (s : BotState) :
  exists r calls,
    qa_chain_invoke svc chain question s
    = (r, {| b_self := b_self s;
             b_world := set_trace (trace (b_world s) ++ calls) (b_world s) |})
    /\ length calls <= 2
    /\ forallb service_call calls = true.
Proof.
  destruct s as [self [dirs files idx tr]].
  unfold qa_chain_invoke, retriever_invoke, bind, call_service, get_world, gets,
    lift_outcome, ret. simpl.
  destruct (embed_query svc _ question) as [e|e]; simpl.
  2:{ eexists _, [_]. split; [reflexivity|]. split; [simpl; lia | done]. }
  destruct (qa_prompt svc _ question _) as [prompt|e'].
  2:{ eexists _, [_]. split; [reflexivity|]. split; [simpl; lia | done]. }
  eexists _, [_; _]. rewrite <- app_assoc. split; [reflexivity|].
  split; [simpl; lia | done].
Qed.

(** X12: whatever [ask] returns, it leaves every field of the chatbot
    but the history, and every part of the world but the trace, as they
    were: the registry, the directories and the indexes are not written.
    It makes at most three calls, all to the embedding or the generative
    service, and the history is either what it was or longer by the one
    turn of the question as asked and the answer returned. *)
Theorem ask_touches_history_and_trace_only (question : string) (streaming : bool)
    (s s' : BotState) (r : outcome AskResult) :
  ask svc question streaming s = (r, s') ->
  b_self s' = set_conversation_history (conversation_history (b_self s')) (b_self s)
  /\ (exists calls,
        b_world s' = set_trace (trace (b_world s) ++ calls) (b_world s)
        /\ length calls <= 3
        /\ forallb service_call calls = true)
  /\ (conversation_history (b_self s') = conversation_history (b_self s)
      \/ exists answer,
           streaming = false
           /\ r = Return (Answer answer)
           /\ conversation_history (b_self s')
              = (conversation_history (b_self s) ++ [(question, answer)])%list).
Proof.
  assert (Hsame : forall t : BotState,
            b_self t = set_conversation_history (conversation_history (b_self t)) (b_self t)
            /\ (exists calls,
                  b_world t = set_trace (trace (b_world t) ++ calls) (b_world t)
                  /\ length calls <= 3 /\ forallb service_call calls = true)).
  { intros [[] []]. split; [done|]. exists []. simpl. rewrite app_nil_r.
    split; [done|]. split; [lia | done]. }
  unfold ask, bind, gets.
  destruct (retriever (b_self s)) as [rt|].
  2:{ intros [= <- <-]. destruct (Hsame s) as [H1 H2]. split; [done|]. split; [done|]. by left. }
  destruct (qa_chain (b_self s)) as [chain|].
  2:{ intros [= <- <-]. destruct (Hsame s) as [H1 H2]. split; [done|]. split; [done|]. by left. }
  unfold try_except, bind.
  destruct (rewrite_question_frame question s) as (rw & c1 & -> & Hl1 & Hc1 & _).
  destruct streaming.
  { intros [= <- <-]. simpl. split; [by destruct (b_self s)|].
    split; [|by left]. exists c1. split; [done|]. split; [lia | done]. }
  destruct (qa_chain_invoke_frame chain rw
              {| b_self := b_self s;
                 b_world := set_trace (trace (b_world s) ++ c1) (b_world s) |})
    as (r2 & c2 & -> & Hl2 & Hc2).
  simpl.
  assert (Hcalls : exists calls,
            set_trace ((trace (b_world s) ++ c1) ++ c2)
              (set_trace (trace (b_world s) ++ c1) (b_world s))
            = set_trace (trace (b_world s) ++ calls) (b_world s)
            /\ length calls <= 3 /\ forallb service_call calls = true).
  { exists (c1 ++ c2)%list. rewrite <- app_assoc. split; [done|].
    rewrite length_app, forallb_app, Hc1, Hc2. split; [lia | done]. }
  destruct r2 as [a|e]; intros [= <- <-]; simpl.
  - split; [by destruct (b_self s)|]. split; [done|]. right. by exists a.
  - split; [by destruct (b_self s)|]. split; [done|]. by left.
Qed.

(** X13: the messages given to the rewriter are the turns in order,
    each as a human message followed by an assistant message: twice as
    many messages as turns, turn [i] at the places [2i] and [2i+1]. *)
Theorem convert_alternates (self : RAGChatbot) :
  _convert_to_langchain_messages self
  = flat_map (fun turn => [HumanMessage turn.1; AIMessage turn.2])
             (conversation_history self)
  /\ length (_convert_to_langchain_messages self) = 2 * length (conversation_history self)
  /\ (forall i question answer,
        conversation_history self !! i = Some (question, answer) ->
        _convert_to_langchain_messages self !! (2 * i) = Some (HumanMessage question)
        /\ _convert_to_langchain_messages self !! (2 * i + 1) = Some (AIMessage answer)).
Proof.
  unfold _convert_to_langchain_messages.
  generalize (conversation_history self) as h. intros h.
  assert (Hfold : forall acc,
            fold_left (fun messages '(question, answer) =>
                         (messages ++ [HumanMessage question]) ++ [AIMessage answer])%list
                      h acc
            = (acc ++ flat_map (fun turn => [HumanMessage turn.1; AIMessage turn.2]) h)%list).
  { induction h as [|[q a] h IH]; intros acc; simpl.
    - by rewrite app_nil_r.
    - rewrite IH, <- !app_assoc. done. }
  rewrite Hfold, app_nil_l. clear Hfold. split; [done|]. split.
  - induction h as [|[q a] h IH]; [done|].
    change (length (flat_map (fun turn => [HumanMessage turn.1; AIMessage turn.2])
                      ((q, a) :: h)))
      with (S (S (length (flat_map
                  (fun turn : string * string => [HumanMessage turn.1; AIMessage turn.2]) h)))).
    rewrite IH. simpl. lia.
  - induction h as [|[q a] h IH]; intros i question answer Hi; [done|].
    destruct i as [|i].
    + injection Hi as -> ->. done.
    + destruct (IH i question answer Hi) as [H1 H2].
      replace (2 * S i) with (S (S (2 * i))) by lia.
      replace (S (S (2 * i)) + 1) with (S (S (2 * i + 1))) by lia.
      split; [exact H1 | exact H2].
Qed.

(** X14: switching raises, and changes nothing, when the base is not
    registered. When it is registered the switch returns: the vector store
    is bound to the directory of the base, the retriever and the chains
    are built over it, whatever the index holds, and neither the world nor
    the registry is touched. *)
Theorem switch_fails_only_on_missing_base (name : string) (s : BotState) :
  (metadata (document_base_manager (b_self s)) !! name = None ->
   _switch_document_base name s = (Raise (not_found name), s))
  /\ (forall info,
        metadata (document_base_manager (b_self s)) !! name = Some info ->
        exists s',
          _switch_document_base name s = (Return tt, s')
          /\ b_world s' = b_world s
          /\ document_base_manager (b_self s') = document_base_manager (b_self s)
          /\ vector_store (b_self s')
             = {| persist_directory :=
                    Py.os_path_join (base_directory (document_base_manager (b_self s)))
                      (directory info);
                  store_api_key := openai_api_key (b_self s) |}
          /\ retriever (b_self s') = Some (get_retriever (vector_store (b_self s')))
          /\ qa_chain (b_self s')
             = Some {| chain_context := get_retriever (vector_store (b_self s')) |}
          /\ rewriter_chain (b_self s') = Some tt).
Proof.
  destruct s as [self w].
  unfold _switch_document_base, on_manager, zoom, get_document_base_path, bind, gets.
  simpl. split.
  - intros ->. simpl. by destruct self.
  - intros info ->. simpl. eexists. split; [reflexivity|]. simpl.
    by destruct self as [? []].
Qed.

(** X15: after [clear_history] the next question is not rewritten: the
    rewriter returns it as it is without a call, the prompt is given the
    sentence for an empty history, and a successful answer leaves a
    history of this one turn. The world is not touched by the clearing. *)
Theorem clear_history_then_ask (question : string) (s : BotState)
    (r : Retriever) (chain : QAChain) :
  retriever (b_self s) = Some r ->
  qa_chain (b_self s) = Some chain ->
  exists s0,
    clear_history s = (Return tt, s0)
    /\ b_world s0 = b_world s
    /\ b_self s0 = set_conversation_history [] (b_self s)
    /\ _rewrite_question svc question s0 = (Return question, s0)
    /\ _format_history_for_prompt (b_self s0) = "No previous conversation."
    /\ (forall answer s1,
          qa_chain_invoke svc chain question s0 = (Return answer, s1) ->
          exists s2,
            ask svc question false s0 = (Return (Answer answer), s2)
            /\ conversation_history (b_self s2) = [(question, answer)]).
Proof.
  intros Hr Hc. eexists. split; [reflexivity|]. simpl.
  split; [done|]. split; [done|]. split; [done|]. split; [done|].
  intros answer s1 Hqa.
  unfold ask, bind, gets. simpl. rewrite Hr, Hc.
  unfold try_except, bind, _rewrite_question, bind, gets. simpl.
  rewrite Hqa. eexists. split; [reflexivity|]. simpl.
  pose proof (qa_chain_invoke_self svc chain question
                {| b_self := set_conversation_history [] (b_self s);
                   b_world := b_world s |}) as Hself.
  rewrite Hqa in Hself. simpl in Hself. by rewrite Hself.
Qed.

(** X16: [ask_sync] raises a [TypeError] for every question, in every
    state, and leaves the state as it was, since it passes [top_k] to
    [ask], which has no such parameter. The host's [ask_question]
    therefore answers every question, once documents are loaded, with the
    text of this error. *)
Theorem ask_sync_always_raises (question : string) (streaming : bool) (top_k : option Z)
    (s : BotState) :
  exists msg,
    ask_sync svc question streaming top_k s = (Raise (TypeError msg), s)
    /\ forall (ss : Session) bot,
         chatbot ss = Some bot ->
         documents_loaded ss = true ->
         ask_question svc question ss
         = (Answer ("Error generating response: " +:+ msg), ss).
Proof.
  eexists. split.
  - unfold ask_sync, call_ask. by destruct streaming.
  - intros [cb dl tk w] bot Hcb Hdl. simpl in *. subst.
    unfold ask_question. simpl. reflexivity.
Qed.

End AskingFrame.

(** ** Building a chatbot *)

Section Building.

Lemma init_cases (pd : string) (key env name : option string)
    (mgr : option DocumentBaseManager) (w : World) :
  let ms := match mgr with
            | Some m => {| m_self := m; m_world := w |}
            | None => DocumentBaseManager_init "./document_bases" w
            end in
  (Py.truthy_opt (py_or key env) = false
   /\ RAGChatbot_init pd key env name mgr w
      = (Raise (ValueError "OpenAI API key is required."), w))
  \/ (exists k dir (loaded : bool),
        py_or key env = Some k /\ Py.truthy k = true
        /\ RAGChatbot_init pd key env name mgr w
           = (Return
                {| openai_api_key := k;
                   document_base_manager := m_self ms;
                   current_document_base := if Py.truthy_opt name then name else None;
                   vector_store := {| persist_directory := dir; store_api_key := k |};
                   retriever :=
                     if loaded
                     then Some (get_retriever {| persist_directory := dir; store_api_key := k |})
                     else None;
                   conversation_history := [];
                   qa_chain :=
                     if loaded
                     then Some {| chain_context :=
                                    get_retriever {| persist_directory := dir;
                                                     store_api_key := k |} |}
                     else None;
                   rewriter_chain := if loaded then Some tt else None |},
              m_world ms)
        /\ (dir, loaded)
           = match (if Py.truthy_opt name then name else None) with
             | Some n =>
                 match metadata (m_self ms) !! n with
                 | Some info =>
                     let path := Py.os_path_join (base_directory (m_self ms)) (directory info) in
                     (path, index_exists (m_world ms) path)
                 | None => (pd, false)
                 end
             | None => (pd, false)
             end).
Proof.
  intros ms. unfold RAGChatbot_init. fold ms.
  destruct (py_or key env) as [k|] eqn:Ek; [|by left].
  simpl. destruct (Py.truthy k) eqn:Tk; [|by left].
  right. exists k.
  destruct name as [n|]; simpl.
  2:{ exists pd, false. done. }
  destruct (Py.truthy n) eqn:Tn.
  2:{ exists pd, false. done. }
  unfold get_document_base_path, bind, gets, ret, raise. simpl.
  destruct (metadata (m_self ms) !! n) as [info|] eqn:E; simpl.
  2:{ exists pd, false. done. }
  destruct (index_exists (m_world ms) _) eqn:Ex.
  - eexists _, true. split; [done|]. split; [done|]. split; reflexivity.
  - eexists _, false. split; [done|]. split; [done|]. split; reflexivity.
Qed.

Lemma init_in_order (pd : string) (key env name : option string)
    (mgr : option DocumentBaseManager) (w w' : World) (self : RAGChatbot) :
  RAGChatbot_init pd key env name mgr w = (Return self, w') ->
  in_order self /\ conversation_history self = [].
Proof.
  intros H.
  destruct (init_cases pd key env name mgr w) as [[_ H0]|(k & dir & l & _ & Tk & H0 & _)];
    rewrite H0 in H; [discriminate|].
  injection H as <- <-. split; [|done].
  destruct l; (split; split); simpl; first [done | by intros [? ?]].
Qed.

(** X17: without a key from the argument or the environment the
    constructor raises [ValueError] and touches nothing. When it returns,
    the history is empty; with no base name the storage location is the
    given directory and there is no retriever, even if an index is stored
    there; with the name of a base that is not registered the name is
    still recorded as the current base, over the given directory, without
    retriever; with a registered name the storage location is that of the
    base and the retriever is built exactly when an index exists there. *)
Theorem init_loads_only_a_registered_base (pd : string) (key env name : option string)
    (mgr : option DocumentBaseManager) (w : World) :
  (Py.truthy_opt (py_or key env) = false ->
   RAGChatbot_init pd key env name mgr w
   = (Raise (ValueError "OpenAI API key is required."), w))
  /\ (forall self w',
        RAGChatbot_init pd key env name mgr w = (Return self, w') ->
        Some (openai_api_key self) = py_or key env
        /\ conversation_history self = []
        /\ (forall m, mgr = Some m -> document_base_manager self = m /\ w' = w)
        /\ (Py.truthy_opt name = false ->
            current_document_base self = None
            /\ persist_directory (vector_store self) = pd
            /\ retriever self = None)
        /\ (forall n,
              name = Some n -> Py.truthy n = true ->
              metadata (document_base_manager self) !! n = None ->
              current_document_base self = Some n
              /\ persist_directory (vector_store self) = pd
              /\ retriever self = None)
        /\ (forall n info,
              name = Some n -> Py.truthy n = true ->
              metadata (document_base_manager self) !! n = Some info ->
              let path := Py.os_path_join (base_directory (document_base_manager self))
                            (directory info) in
              current_document_base self = Some n
              /\ persist_directory (vector_store self) = path
              /\ (index_exists w' path = true -> is_Some (retriever self))
              /\ (index_exists w' path = false -> retriever self = None))).
Proof.
  destruct (init_cases pd key env name mgr w) as [[Hk H0]|(k & dir & l & Hk & Tk & H0 & Hd)].
  { split; [done|]. intros self w' H. rewrite H0 in H. discriminate. }
  split.
  { intros Hf. rewrite Hk in Hf. simpl in Hf. congruence. }
  intros self w' H. rewrite H0 in H. injection H as <- <-. simpl.
  split; [done|]. split; [done|].
  split; [by intros m ->|].
  split.
  { intros Hn. rewrite Hn in *. injection Hd as -> ->. done. }
  split.
  { intros n -> Tn Hnone. simpl in *. rewrite Tn in *. rewrite Hnone in Hd.
    injection Hd as -> ->. done. }
  intros n info -> Tn Hin. simpl in *. rewrite Tn in *. rewrite Hin in Hd.
  injection Hd as -> ->. split; [done|]. split; [done|].
  split; intros ->; simpl; eauto.
Qed.

End Building.

(** ** The chatbot stays in order *)

Section StaysInOrder.

Variable svc : Services.

Section Preserves.

Variable I : RAGChatbot -> Prop.

Lemma preserves_ret {A} (a : A) : preserves I (ret a).
Proof. by intros s. Qed.

Lemma preserves_raise {A} (e : exn) : preserves I (@raise BotState A e).
Proof. by intros s. Qed.

Lemma preserves_lift_outcome {A} (o : outcome A) : preserves I (lift_outcome o).
Proof. by intros s. Qed.

Lemma preserves_gets {A} (f : BotState -> A) : preserves I (gets f).
Proof. by intros s. Qed.

Lemma preserves_modify_world (f : World -> World) : preserves I (modify_world f).
Proof. by intros s. Qed.

Lemma preserves_call_service {A} (ev : Event) (f : list Event -> outcome A) :
  preserves I (call_service ev f).
Proof. by intros s. Qed.

Lemma preserves_ask_service {A} (f : list Event -> outcome A) :
  preserves I (ask_service f).
Proof. by intros s. Qed.

Lemma preserves_bind {A B} (m : M BotState A) (k : A -> M BotState B) :
  preserves I m -> (forall a, preserves I (k a)) -> preserves I (bind m k).
Proof.
  intros Hm Hk s Hs. unfold bind. specialize (Hm s Hs).
  destruct (m s) as [[a|e] s1]; simpl in *; [|done].
  by apply Hk.
Qed.

Lemma preserves_try_except {A} (m : M BotState A) (h : exn -> M BotState A) :
  preserves I m -> (forall e, preserves I (h e)) -> preserves I (try_except m h).
Proof.
  intros Hm Hh s Hs. unfold try_except. specialize (Hm s Hs).
  destruct (m s) as [[a|e] s1]; simpl in *; [done|].
  by apply Hh.
Qed.

Lemma preserves_try_except_KeyError {A} (m h : M BotState A) :
  preserves I m -> preserves I h -> preserves I (try_except_KeyError m h).
Proof.
  intros Hm Hh s Hs. unfold try_except_KeyError. specialize (Hm s Hs).
  destruct (m s) as [[a|e] s1]; simpl in *; [done|].
  destruct (is_KeyError e); simpl; [by apply Hh | done].
Qed.

Lemma preserves_modify_self (f : RAGChatbot -> RAGChatbot) :
  (forall self, I self -> I (f self)) -> preserves I (modify_self f).
Proof. intros Hf s Hs. simpl. by apply Hf. Qed.

Lemma preserves_on_manager {A} (m : M ManagerState A) :
  (forall mgr self, I self -> I (set_document_base_manager mgr self)) ->
  preserves I (on_manager m).
Proof.
  intros HI s Hs. unfold on_manager, zoom.
  destruct (m _) as [r t]. simpl. by apply HI.
Qed.

End Preserves.

Lemma in_order_any_manager (mgr : DocumentBaseManager) (self : RAGChatbot) :
  in_order self -> in_order (set_document_base_manager mgr self).
Proof. by intros [[? ?] [? ?]]. Qed.

(** Setting the retriever and building the chain over it puts the chain
    in step with the retriever. *)
Lemma rebuild_chain_in_order :
  preserves in_order
    (modify_self (fun self => set_retriever (Some (get_retriever (vector_store self))) self) ;;;
     _create_qa_chain).
Proof. intros s [_ [K1 K2]]. by repeat split. Qed.

Lemma drop_chain_in_order :
  preserves in_order
    (modify_self (set_retriever None) ;;; modify_self (set_qa_chain None)).
Proof. intros s [_ [K1 K2]]. repeat split; simpl; first [done | by intros [? ?]]. Qed.

Hint Resolve preserves_ret preserves_raise preserves_lift_outcome preserves_gets
  preserves_modify_world preserves_call_service preserves_ask_service
  rebuild_chain_in_order drop_chain_in_order : in_order.
Hint Extern 2 (preserves in_order (on_manager _)) =>
  apply preserves_on_manager; intros; by apply in_order_any_manager : in_order.
Hint Extern 2 (preserves in_order (modify_self _)) =>
  apply preserves_modify_self; by intros ? [[? ?] [? ?]] : in_order.

Ltac stays_in_order :=
  repeat first
    [ solve [auto with in_order]
    | lazymatch goal with
      | |- preserves _ (bind _ _) => apply preserves_bind; [|intros]
      | |- preserves _ (try_except_KeyError _ _) => apply preserves_try_except_KeyError
      | |- preserves _ (try_except _ _) => apply preserves_try_except; [|intros]
      | |- preserves _ (match ?x with _ => _ end) => destruct x
      end ].

Lemma ask_in_order (question : string) (streaming : bool) :
  preserves in_order (ask svc question streaming).
Proof.
  unfold ask, _rewrite_question, rewriter_chain_invoke, qa_chain_invoke, retriever_invoke,
    get_world.
  stays_in_order.
Qed.

Lemma consume_in_order (generator : Generator) : preserves in_order (consume svc generator).
Proof. unfold consume, qa_chain_invoke, retriever_invoke, get_world. stays_in_order. Qed.

Lemma clear_documents_in_order : preserves in_order clear_documents.
Proof. unfold clear_documents, VectorStore_clear. stays_in_order. Qed.

Lemma clear_history_in_order : preserves in_order clear_history.
Proof. unfold clear_history. stays_in_order. Qed.

Lemma switch_in_order (name : string) : preserves in_order (_switch_document_base name).
Proof. unfold _switch_document_base. stays_in_order. Qed.

Lemma process_files_in_order (file_paths : list string) :
  forall b, preserves in_order (process_files svc file_paths b).
Proof. induction file_paths as [|path rest IH]; intros b; simpl; stays_in_order. Qed.

Lemma load_documents_in_order file_paths directory_path document_base_name :
  preserves in_order (load_documents svc file_paths directory_path document_base_name).
Proof.
  pose proof switch_in_order. pose proof process_files_in_order.
  unfold load_documents, add_texts. stays_in_order.
Qed.

(** X18: in every reachable state the chain is the one built over the
    retriever the chatbot holds (both are there or none is), the rewriter
    chain is there whenever the chain is, the key is not empty and the
    vector store holds the same key. *)
Theorem reachable_in_order (s : BotState) :
  reachable svc s ->
  qa_chain (b_self s) = (fun r => {| chain_context := r |}) <$> retriever (b_self s)
  /\ (is_Some (qa_chain (b_self s)) -> rewriter_chain (b_self s) = Some tt)
  /\ Py.truthy (openai_api_key (b_self s)) = true
  /\ store_api_key (vector_store (b_self s)) = openai_api_key (b_self s).
Proof.
  intros H.
  assert (Hs : in_order (b_self s)); [|by destruct Hs as [[? ?] [? ?]]].
  induction H as [pd key env name mgr w self w' H
                 |s fp dp name r s' _ IH H
                 |s q st r s' _ IH H
                 |s g r s' _ IH H
                 |s r s' _ IH H
                 |s r s' _ IH H
                 |s name d r s' _ IH H
                 |s name r s' _ IH H].
  - by destruct (init_in_order _ _ _ _ _ _ _ _ H).
  - pose proof (load_documents_in_order fp dp name s IH) as P. by rewrite H in P.
  - pose proof (ask_in_order q st s IH) as P. by rewrite H in P.
  - pose proof (consume_in_order g s IH) as P. by rewrite H in P.
  - pose proof (clear_documents_in_order s IH) as P. by rewrite H in P.
  - pose proof (clear_history_in_order s IH) as P. by rewrite H in P.
  - assert (P : preserves in_order (on_manager (create_document_base svc name d)))
      by stays_in_order.
    specialize (P s IH). by rewrite H in P.
  - assert (P : preserves in_order (on_manager (delete_document_base svc name)))
      by stays_in_order.
    specialize (P s IH). by rewrite H in P.
Qed.

End StaysInOrder.

(** ** Ingesting *)

Section Ingesting.

Variable svc : Services.

Lemma process_files_run (file_paths : list string) (b : Batch) (s : BotState) :
  process_files svc file_paths b s
  = (Return (processed_batch svc (trace (b_world s)) file_paths b), s).
Proof.
  revert b. induction file_paths as [|path rest IH]; intros b; [done|].
  simpl. unfold bind, try_except, ask_service, ret. simpl.
  destruct (process_file svc (trace (b_world s)) path); simpl; apply IH.
Qed.

Lemma processed_batch_facts (tr : list Event) (file_paths : list string) (b : Batch) :
  let b' := processed_batch svc tr file_paths b in
  processed_chunks b' = (processed_chunks b ++ flat_map (chunks_of svc tr) file_paths)%list
  /\ file_count b'
     = (file_count b + Z.of_nat (length (processed_paths svc tr file_paths)))%Z
  /\ (length (metadatas b) = length (processed_chunks b) ->
      length (metadatas b') = length (processed_chunks b'))
  /\ (Forall (fun m => source m = Py.os_path_basename (file_path m)) (metadatas b) ->
      Forall (fun m => source m = Py.os_path_basename (file_path m)) (metadatas b')).
Proof.
  revert b. induction file_paths as [|path rest IH]; intros b; simpl.
  - rewrite app_nil_r. split; [done|]. split; [lia | done].
  - unfold processed_paths, chunks_of, processes in *. rewrite filter_cons.
    destruct (process_file svc tr path) as [chunks|e] eqn:E; simpl.
    + destruct (IH (extend_batch (Py.os_path_basename path) path chunks b))
        as (H1 & H2 & H3 & H4).
      split; [by rewrite H1; simpl; rewrite <- app_assoc|].
      split; [rewrite H2; simpl; lia|].
      split.
      * intros Hl. apply H3. simpl. rewrite !length_app, length_map. lia.
      * intros Hf. apply H4. simpl. apply Forall_app. split; [done|].
        apply Forall_forall. intros m Hm. apply list_elem_of_fmap in Hm as (c & -> & _).
        done.
    + apply IH.
Qed.

(** X19: the loop over the files never raises and leaves the state as
    it was; it gathers the chunks of the files that are processed without
    error, in order, with one metadata record per chunk whose source is
    the file name of its path, and counts these files only. *)
Theorem batch_of_files (file_paths : list string) (s : BotState) :
  exists b,
    process_files svc file_paths empty_batch s = (Return b, s)
    /\ processed_chunks b = flat_map (chunks_of svc (trace (b_world s))) file_paths
    /\ length (metadatas b) = length (processed_chunks b)
    /\ Forall (fun m => source m = Py.os_path_basename (file_path m)) (metadatas b)
    /\ file_count b
       = Z.of_nat (length (processed_paths svc (trace (b_world s)) file_paths))
    /\ (0 <= file_count b <= Z.of_nat (length file_paths))%Z.
Proof.
  exists (processed_batch svc (trace (b_world s)) file_paths empty_batch).
  split; [apply process_files_run|].
  destruct (processed_batch_facts (trace (b_world s)) file_paths empty_batch)
    as (H1 & H2 & H3 & H4).
  split; [done|]. split; [by apply H3|]. split; [by apply H4|].
  split; [by rewrite H2|].
  rewrite H2. simpl.
  pose proof (length_filter (fun path => processes svc (trace (b_world s)) path = true)
                file_paths).
  unfold processed_paths. lia.
Qed.

Ltac run_load :=
  unfold load_documents, bind, gets, ret; simpl.

(** X20: when [load_documents] ingests into the current, registered
    base (no switch, no directory) and the embedding succeeds, it returns
    the number of chunks; the record of the base has its chunk counter
    grown by this number, its document counter grown by the number of
    files processed without error, and its document list extended by the
    file names of all the given paths, failed ones included; the chunks
    are appended to the index and the retriever and chain are rebuilt. *)
Theorem load_documents_counts (file_paths : list string)
    (directory_path document_base_name : option string) (s : BotState)
    (current : string) (info : BaseInfo) (embeddings : list Embedding) :
  let tr := trace (b_world s) in
  let b := processed_batch svc tr file_paths empty_batch in
  let dir := persist_directory (vector_store (b_self s)) in
  Py.truthy_opt document_base_name = false
    \/ document_base_name = current_document_base (b_self s) ->
  Py.truthy_opt directory_path = false ->
  current_document_base (b_self s) = Some current ->
  Py.truthy current = true ->
  metadata (document_base_manager (b_self s)) !! current = Some info ->
  processed_chunks b <> [] ->
  embed_documents svc tr (processed_chunks b) = Return embeddings ->
  exists s' info',
    load_documents svc file_paths directory_path document_base_name s
    = (Return (length (processed_chunks b)), s')
    /\ metadata (document_base_manager (b_self s')) !! current = Some info'
    /\ num_chunks info' = (num_chunks info + Z.of_nat (length (processed_chunks b)))%Z
    /\ num_documents info'
       = (num_documents info + Z.of_nat (length (processed_paths svc tr file_paths)))%Z
    /\ files_of info' = (files_of info ++ map Py.os_path_basename file_paths)%list
    /\ index_contents (b_world s') dir
       = (index_contents (b_world s) dir
          ++ stored_chunks (processed_chunks b) embeddings (metadatas b))%list
    /\ retriever (b_self s') = Some (get_retriever (vector_store (b_self s)))
    /\ qa_chain (b_self s')
       = Some {| chain_context := get_retriever (vector_store (b_self s)) |}.
Proof.
  intros tr b dir Hname Hdir Hcur Tcur Hin Hne Hemb.
  destruct (processed_batch_facts tr file_paths empty_batch) as (_ & Hcount & _).
  fold b in Hcount. simpl in Hcount.
  assert (Hprefix :
    (match document_base_name with
     | Some name =>
         if Py.truthy name then
           self <- gets b_self ;;
           if negb (opt_eqb (Some name) (current_document_base self)) then
             try_except_KeyError
               (base_path <- on_manager (get_document_base_path name) ;;
                _switch_document_base name)
               (base_path <- on_manager (create_document_base svc name "") ;;
                modify_self (set_current_document_base (Some name)) ;;;
                modify_self (fun self =>
                  set_vector_store {| persist_directory := base_path;
                                      store_api_key := openai_api_key self |} self))
           else ret tt
         else ret tt
     | None => ret tt
     end) s = (Return tt, s)).
  { destruct document_base_name as [n|]; [|done].
    destruct (Py.truthy n) eqn:Tn; [|done].
    destruct Hname as [Hf|Heq]; [simpl in Hf; congruence|].
    unfold bind, gets. simpl. unfold opt_eqb. by rewrite bool_decide_eq_true_2. }
  unfold load_documents. unfold bind at 1. rewrite Hprefix.
  unfold bind at 1. rewrite process_files_run. fold tr. fold b.
  assert (Hd : (match directory_path with
                | Some dir0 =>
                    if Py.truthy dir0 then
                      try_except
                        (processed_files <-
                           ask_service (fun tr => process_directory svc tr dir0) ;;
                         ret (process_found dir0 processed_files b))
                        (fun _ => ret b)
                    else ret b
                | None => ret b
                end) s = (Return b, s)).
  { destruct directory_path as [d|]; [|done]. simpl in Hdir. by rewrite Hdir. }
  unfold bind at 1. rewrite Hd.
  destruct (processed_chunks b) as [|c cs] eqn:Eb; [done|].
  destruct s as [self w]. simpl in *. subst tr.
  unfold add_texts, on_manager, zoom, update_document_base, read_clock, _save_metadata,
    log_event, modify_manager, _create_qa_chain, modify_self, modify_world, call_service,
    modify, gets, bind, ret.
  simpl. rewrite Hemb. simpl. rewrite Hcur, Tcur. simpl. rewrite Hin. simpl.
  eexists _, _. split; [reflexivity|]. simpl.
  split; [by rewrite lookup_insert_eq|].
  split; [done|]. split; [simpl; by rewrite Hcount|].
  split; [apply updated_info_files|].
  split; [unfold index_contents; simpl; by rewrite lookup_insert_eq|].
  done.
Qed.

(** X21: when the current base is not in the registry, [load_documents]
    stores the chunks in the index and then raises [KeyError]: the chatbot
    itself, its retriever and chain included, is what it was. *)
Theorem load_documents_into_unregistered_base (file_paths : list string) (s : BotState)
    (current : string) (embeddings : list Embedding) :
  let tr := trace (b_world s) in
  let b := processed_batch svc tr file_paths empty_batch in
  let dir := persist_directory (vector_store (b_self s)) in
  current_document_base (b_self s) = Some current ->
  Py.truthy current = true ->
  metadata (document_base_manager (b_self s)) !! current = None ->
  processed_chunks b <> [] ->
  embed_documents svc tr (processed_chunks b) = Return embeddings ->
  exists s',
    load_documents svc file_paths None None s = (Raise (not_found current), s')
    /\ index_contents (b_world s') dir
       = (index_contents (b_world s) dir
          ++ stored_chunks (processed_chunks b) embeddings (metadatas b))%list
    /\ b_self s' = b_self s.
Proof.
  intros tr b dir Hcur Tcur Hout Hne Hemb.
  unfold load_documents. unfold bind at 1. unfold ret at 1.
  unfold bind at 1. rewrite process_files_run. fold tr. fold b.
  unfold bind at 1. unfold ret at 1.
  destruct (processed_chunks b) as [|c cs] eqn:Eb; [done|].
  destruct s as [self w]. simpl in *. subst tr.
  unfold add_texts, on_manager, zoom, update_document_base, read_clock, _save_metadata,
    log_event, modify_manager, _create_qa_chain, modify_self, modify_world, call_service,
    modify, gets, bind, ret, raise.
  simpl. rewrite Hemb. simpl. rewrite Hcur, Tcur. simpl. rewrite Hout. simpl.
  eexists. split; [reflexivity|]. simpl.
  split; [unfold index_contents; simpl; by rewrite lookup_insert_eq|].
  by destruct self as [? []].
Qed.


End Ingesting.

Section RenderingWindow.

(** X23: of a history of more than three turns the rendering depends
    only on the number of turns and on the last three: two histories of
    the same length with the same last three turns are rendered alike. *)
Theorem format_history_forgets_older_turns (self self' : RAGChatbot) :
  length (conversation_history self') = length (conversation_history self) ->
  3 < length (conversation_history self) ->
  drop (length (conversation_history self') - 3) (conversation_history self')
  = drop (length (conversation_history self) - 3) (conversation_history self) ->
  _format_history_for_prompt self' = _format_history_for_prompt self.
Proof.
  unfold _format_history_for_prompt.
  generalize (conversation_history self) as h.
  generalize (conversation_history self') as h'. intros h' h Hlen Hlong Hdrop.
  destruct h as [|t r] eqn:Eh; [simpl in Hlong; lia|]. rewrite <- Eh in *.
  destruct h' as [|t' r'] eqn:Eh'; [simpl in Hlen; lia|]. rewrite <- Eh' in *.
  rewrite Hlen in *.
  destruct (3 <? length h)%nat eqn:E3; [by rewrite Hdrop|].
  apply Nat.ltb_ge in E3. lia.
Qed.

End RenderingWindow.

(** ** The further theorems at work on the concrete session *)

Section MoreWitnesses.

Import Scenario.

Ltac evaluated := vm_compute; reflexivity.

Ltac is_member := apply (bool_decide_unpack _); vm_compute; exact I.

Lemma registry_of_session :
  metadata (m_self (registry svc)) = <["papers" := papers_info]> ∅.
Proof. evaluated. Qed.


Lemma registry_reload_round_trip_witness :
  standard_manager
    (m_self (update_document_base svc "papers" 2 15 ["/tmp/a.pdf"] (registry svc)).2)
  /\ metadata_files
       (m_world (update_document_base svc "papers" 2 15 ["/tmp/a.pdf"] (registry svc)).2)
     !! "./document_bases/metadata.json"
     = Some (metadata
               (m_self (update_document_base svc "papers" 2 15 ["/tmp/a.pdf"]
                          (registry svc)).2))
  /\ m_self (DocumentBaseManager_init "./document_bases"
              (m_world (update_document_base svc "papers" 2 15 ["/tmp/a.pdf"]
                          (registry svc)).2))
     = m_self (update_document_base svc "papers" 2 15 ["/tmp/a.pdf"] (registry svc)).2.
Proof.
  apply (registry_reload_round_trip svc (OpUpdate "papers" 2 15 ["/tmp/a.pdf"])
           (registry svc)); evaluated.
Defined.

Lemma registry_op_frame_witness :
  metadata (m_self (run_op svc (OpRename "papers" "articles") (registry svc)).2) !! "notes"
  = metadata (m_self (registry svc)) !! "notes".
Proof.
  apply (registry_op_frame svc (OpRename "papers" "articles") (registry svc) "notes").
  is_member.
Defined.

Lemma registry_keeps_names_only_witness :
  names_only
    (metadata
       (m_self (update_document_base svc "papers" 1 7 ["/tmp/upload/paris.pdf"]
                  (registry svc)).2)).
Proof.
  apply (registry_keeps_names_only svc (OpUpdate "papers" 1 7 ["/tmp/upload/paris.pdf"])
           (registry svc)).
  rewrite registry_of_session. apply names_only_insert; [|constructor].
  intros name info H. by rewrite lookup_empty in H.
Defined.


Example created_directory_name :
  (create_document_base svc "../notes" "Lecture notes" (registry svc)).1
  = Return "./document_bases/___notes_1700000006".
Proof. evaluated. Qed.

Lemma rename_moves_record_witness :
  exists s' info',
    rename_document_base svc "papers" "articles" (registry svc) = (Return tt, s')
    /\ metadata (m_self s') !! "papers" = None
    /\ metadata (m_self s') !! "articles" = Some info'
    /\ (created_at info', description info', directory info',
        num_documents info', num_chunks info', documents info')
       = (created_at papers_info, description papers_info, directory papers_info,
          num_documents papers_info, num_chunks papers_info, documents papers_info)
    /\ get_document_base_path "articles" s'
       = (Return (Py.os_path_join (base_directory (m_self (registry svc)))
                    (directory papers_info)), s')
    /\ directories (m_world s') = directories (m_world (registry svc))
    /\ size (metadata (m_self s')) = size (metadata (m_self (registry svc))).
Proof.
  apply (rename_moves_record svc "papers" "articles" (registry svc) papers_info);
    evaluated.
Defined.

Lemma rename_refused_witness :
  rename_document_base svc "drafts" "articles" (registry svc)
  = (Raise (not_found "drafts"), registry svc)
  /\ rename_document_base svc "papers" "papers" (registry svc)
     = (Raise (already_exists "papers"), registry svc).
Proof.
  destruct (rename_refused svc "drafts" "articles" (registry svc)) as (H1 & _ & _).
  destruct (rename_refused svc "papers" "papers" (registry svc)) as (_ & _ & H3).
  split; [apply H1; evaluated|].
  apply H3. exists papers_info. evaluated.
Defined.

Lemma delete_then_lookup_witness :
  get_document_base "papers" emptied_registry = (Raise (not_found "papers"), emptied_registry)
  /\ get_document_base_path "papers" emptied_registry
     = (Raise (not_found "papers"), emptied_registry)
  /\ (forall nd nc docs,
        update_document_base svc "papers" nd nc docs emptied_registry
        = (Raise (not_found "papers"), emptied_registry))
  /\ delete_document_base svc "papers" emptied_registry
     = (Raise (not_found "papers"), emptied_registry)
  /\ (exists info,
        metadata (m_self (registry svc)) !! "papers" = Some info
        /\ (Py.os_path_join (base_directory (m_self (registry svc))) (directory info)
            ∉ directories (m_world emptied_registry)))
  /\ S (size (metadata (m_self emptied_registry))) = size (metadata (m_self (registry svc))).
Proof.
  apply (delete_then_lookup svc "papers" (registry svc) emptied_registry). evaluated.
Defined.

Lemma same_second_collision_witness :
  exists s2,
    create_document_base svc_frozen_clock "a_b" ""
      (create_document_base svc_frozen_clock "a b" "" empty_registry).2
    = (Return "./document_bases/a_b_1700000000", s2)
    /\ get_document_base_path "a b" s2 = (Return "./document_bases/a_b_1700000000", s2)
    /\ get_document_base_path "a_b" s2 = (Return "./document_bases/a_b_1700000000", s2)
    /\ (forall s3,
          delete_document_base svc_frozen_clock "a b" s2 = (Return tt, s3) ->
          get_document_base_path "a_b" s3 = (Return "./document_bases/a_b_1700000000", s3)
          /\ ("./document_bases/a_b_1700000000" ∉ directories (m_world s3))).
Proof.
  apply (same_second_collision svc_frozen_clock "a b" "a_b" "" "" empty_registry);
    [discriminate | evaluated..].
Defined.

Lemma recreated_base_gets_new_directory_witness :
  (create_document_base svc "papers" "Reading list" emptied_registry).1
  <> (create_document_base svc "papers" "Reading list" empty_registry).1.
Proof.
  intros H.
  apply (recreated_base_gets_new_directory svc "papers" "Reading list" "Reading list"
           empty_registry (create_document_base svc "papers" "Reading list" empty_registry).2
           emptied_registry
           (create_document_base svc "papers" "Reading list" emptied_registry).2
           "./document_bases/papers_1700000001" "./document_bases/papers_1700000008").
  - evaluated.
  - evaluated.
  - evaluated.
  - vm_compute. discriminate.
  - revert H. vm_compute. congruence.
Defined.

Lemma list_document_bases_complete_witness :
  summary_of "papers" papers_info ∈ list_document_bases (m_self (registry svc))
  /\ length (list_document_bases (m_self (registry svc))) = 1.
Proof.
  destruct (list_document_bases_complete (m_self (registry svc))) as (H1 & _ & _ & H4).
  split; [apply H1; evaluated|].
  rewrite H4. evaluated.
Defined.

Lemma ask_touches_history_and_trace_only_witness :
  b_self (ask svc follow_up false (asked svc)).2
  = set_conversation_history
      (conversation_history (b_self (ask svc follow_up false (asked svc)).2))
      (b_self (asked svc))
  /\ (exists calls,
        b_world (ask svc follow_up false (asked svc)).2
        = set_trace (trace (b_world (asked svc)) ++ calls) (b_world (asked svc))
        /\ length calls <= 3
        /\ forallb service_call calls = true)
  /\ (conversation_history (b_self (ask svc follow_up false (asked svc)).2)
      = conversation_history (b_self (asked svc))
      \/ exists answer,
           false = false
           /\ (ask svc follow_up false (asked svc)).1 = Return (Answer answer)
           /\ conversation_history (b_self (ask svc follow_up false (asked svc)).2)
              = (conversation_history (b_self (asked svc)) ++ [(follow_up, answer)])%list).
Proof.
  apply (ask_touches_history_and_trace_only svc follow_up false (asked svc)
           (ask svc follow_up false (asked svc)).2
           (ask svc follow_up false (asked svc)).1).
  apply surjective_pairing.
Defined.

Lemma convert_alternates_witness :
  _convert_to_langchain_messages seven_turns !! 8 = Some (HumanMessage "q5")
  /\ _convert_to_langchain_messages seven_turns !! 9 = Some (AIMessage "a5").
Proof.
  destruct (convert_alternates seven_turns) as (_ & _ & H).
  apply (H 4 "q5" "a5"). evaluated.
Defined.

Lemma switch_fails_only_on_missing_base_witness :
  _switch_document_base "drafts" (asked svc) = (Raise (not_found "drafts"), asked svc)
  /\ exists s',
       _switch_document_base "papers" (asked svc) = (Return tt, s')
       /\ b_world s' = b_world (asked svc)
       /\ document_base_manager (b_self s') = document_base_manager (b_self (asked svc))
       /\ vector_store (b_self s')
          = {| persist_directory :=
                 Py.os_path_join
                   (base_directory (document_base_manager (b_self (asked svc))))
                   (directory papers_info);
               store_api_key := openai_api_key (b_self (asked svc)) |}
       /\ retriever (b_self s') = Some (get_retriever (vector_store (b_self s')))
       /\ qa_chain (b_self s')
          = Some {| chain_context := get_retriever (vector_store (b_self s')) |}
       /\ rewriter_chain (b_self s') = Some tt.
Proof.
  split.
  - apply (switch_fails_only_on_missing_base "drafts" (asked svc)). evaluated.
  - apply (switch_fails_only_on_missing_base "papers" (asked svc)). evaluated.
Defined.

Lemma clear_history_then_ask_witness :
  exists s0,
    clear_history (asked svc) = (Return tt, s0)
    /\ b_world s0 = b_world (asked svc)
    /\ b_self s0 = set_conversation_history [] (b_self (asked svc))
    /\ _rewrite_question svc follow_up s0 = (Return follow_up, s0)
    /\ _format_history_for_prompt (b_self s0) = "No previous conversation."
    /\ (forall answer s1,
          qa_chain_invoke svc the_chain follow_up s0 = (Return answer, s1) ->
          exists s2,
            ask svc follow_up false s0 = (Return (Answer answer), s2)
            /\ conversation_history (b_self s2) = [(follow_up, answer)]).
Proof.
  apply (clear_history_then_ask svc follow_up (asked svc) the_retriever the_chain);
    evaluated.
Defined.

Lemma ask_sync_always_raises_witness :
  exists msg,
    ask_sync svc follow_up false (Some 4%Z) (asked svc) = (Raise (TypeError msg), asked svc)
    /\ ask_question svc follow_up session
       = (Answer ("Error generating response: " +:+ msg), session).
Proof.
  destruct (ask_sync_always_raises svc follow_up false (Some 4%Z) (asked svc))
    as (msg & H1 & H2).
  exists msg. split; [exact H1|].
  apply (H2 session (b_self (asked svc))); reflexivity.
Defined.

Example ask_question_answer :
  (ask_question svc follow_up session).1
  = Answer ("Error generating response: "
            +:+ "RAGChatbot.ask() got an unexpected keyword argument 'top_k'").
Proof. evaluated. Qed.

Lemma init_loads_only_a_registered_base_witness :
  RAGChatbot_init "./chroma_db" (Some "") None None None empty_world
  = (Raise (ValueError "OpenAI API key is required."), empty_world)
  /\ (current_document_base (b_self ghost) = Some "ghost"
      /\ persist_directory (vector_store (b_self ghost)) = "./chroma_db"
      /\ retriever (b_self ghost) = None).
Proof.
  split.
  - apply (init_loads_only_a_registered_base "./chroma_db" (Some "") None None None
             empty_world).
    evaluated.
  - destruct (init_loads_only_a_registered_base "./chroma_db" (Some "sk-test") None
                (Some "ghost") (Some (m_self (registry svc))) (m_world (registry svc)))
      as [_ H].
    destruct (H (b_self ghost) (b_world ghost)) as (_ & _ & _ & _ & H2 & _); [evaluated|].
    apply (H2 "ghost"); evaluated.
Defined.

Lemma reachable_in_order_witness :
  qa_chain (b_self (asked svc))
  = (fun r => {| chain_context := r |}) <$> retriever (b_self (asked svc))
  /\ (is_Some (qa_chain (b_self (asked svc))) -> rewriter_chain (b_self (asked svc)) = Some tt)
  /\ Py.truthy (openai_api_key (b_self (asked svc))) = true
  /\ store_api_key (vector_store (b_self (asked svc))) = openai_api_key (b_self (asked svc)).
Proof.
  apply (reachable_in_order svc (asked svc)). apply asked_reachable.
Defined.

Lemma load_documents_counts_witness :
  exists s' info',
    load_documents svc_broken_file
      ["/tmp/upload/rome.pdf"; "/tmp/upload/broken.pdf"] None None
      (switched svc_broken_file)
    = (Return 2, s')
    /\ metadata (document_base_manager (b_self s')) !! "papers" = Some info'
    /\ num_chunks info' = 2%Z
    /\ num_documents info' = 1%Z
    /\ files_of info' = ["rome.pdf"; "broken.pdf"].
Proof.
  destruct (load_documents_counts svc_broken_file
              ["/tmp/upload/rome.pdf"; "/tmp/upload/broken.pdf"] None None
              (switched svc_broken_file) "papers" papers_info [[0%Z]; [0%Z]])
    as (s' & info' & H1 & H2 & H3 & H4 & H5 & _).
  - by left.
  - reflexivity.
  - evaluated.
  - reflexivity.
  - evaluated.
  - vm_compute. discriminate.
  - evaluated.
  - exists s', info'. split; [exact H1|]. split; [exact H2|].
    split; [exact H3|]. split; [exact H4|]. exact H5.
Defined.

Lemma load_documents_into_unregistered_base_witness :
  exists s',
    load_documents svc ["/tmp/upload/paris.pdf"] None None ghost
    = (Raise (not_found "ghost"), s')
    /\ index_contents (b_world s') "./chroma_db"
       = (index_contents (b_world ghost) "./chroma_db"
          ++ stored_chunks ["chunk of /tmp/upload/paris.pdf"] [[0%Z]]
               [{| source := "paris.pdf"; file_path := "/tmp/upload/paris.pdf" |}])%list
    /\ b_self s' = b_self ghost.
Proof.
  apply (load_documents_into_unregistered_base svc ["/tmp/upload/paris.pdf"] ghost
           "ghost" [[0%Z]]); try evaluated.
  vm_compute. discriminate.
Defined.


Lemma format_history_forgets_older_turns_witness :
  _format_history_for_prompt other_seven_turns = _format_history_for_prompt seven_turns.
Proof.
  apply (format_history_forgets_older_turns seven_turns other_seven_turns);
    [evaluated | vm_compute; repeat constructor | evaluated].
Defined.

End MoreWitnesses.
